(** * vuln-http-method-auditor: a shallow embedding of [main.py]

    The script probes every configured endpoint of a web server with every
    configured HTTP method, classifies the answers and prints or stores the
    result as JSON.  The embedding follows the source function by function:
    Python dictionaries are insertion-ordered association lists, exceptions
    and side effects (requests sent, log records, lines printed, files
    written) live in a small state-and-exception monad, and the calls that
    leave the repository ([urllib.parse.urljoin], [requests.request],
    [open], [argparse]) are answered by the platform. *)

From Stdlib Require Import String Ascii List ZArith Bool Lia.
Import ListNotations.
Open Scope string_scope.
Open Scope Z_scope.

(** ** Python values and dictionaries *)

(** The three values the prober stores: [True], [False] and [None]. *)
Inductive pyvalue : Type :=
| PyTrue
| PyFalse
| PyNone.

(** The names the specification gives to the three stored values. *)
Definition Allowed : pyvalue := PyTrue.
Definition Denied : pyvalue := PyFalse.
Definition Error : pyvalue := PyNone.

(** A [dict] with string keys: an association list in insertion order,
    holding every key at most once. *)
Definition dict (V : Type) : Type := list (string * V).

(** [d[k] = v]: an existing key keeps its position and gets the new value,
    a new key is appended. *)
Fixpoint dict_set {V : Type} (d : dict V) (k : string) (v : V) : dict V :=
  match d with
  | [] => [(k, v)]
  | (k', v') :: d' =>
      if String.eqb k' k then (k', v) :: d' else (k', v') :: dict_set d' k v
  end.

Fixpoint dict_get {V : Type} (d : dict V) (k : string) : option V :=
  match d with
  | [] => None
  | (k', v') :: d' => if String.eqb k' k then Some v' else dict_get d' k
  end.

Definition keys {V : Type} (d : dict V) : list string := map fst d.

(** Truth value of what [test_http_methods] returns: [None] and the empty
    dictionary are false, every other dictionary is true. *)
Definition truthy {V : Type} (r : option (dict V)) : bool :=
  match r with
  | None => false
  | Some [] => false
  | Some (_ :: _) => true
  end.

(** ** Exceptions, effects and the monad *)

Inductive exn : Type :=
| SystemExit (code : Z)      (* raised by [sys.exit]; not an [Exception] *)
| RequestException           (* [requests.exceptions.RequestException] *)
| ValueError
| IOError
| OtherException.            (* any other subclass of [Exception] *)

Definition is_Exception (e : exn) : bool :=
  match e with SystemExit _ => false | _ => true end.

Definition is_RequestException (e : exn) : bool :=
  match e with RequestException => true | _ => false end.

Definition is_IOError (e : exn) : bool :=
  match e with IOError => true | _ => false end.

(** One call of [requests.request]. *)
Record request : Type := mkRequest {
  req_method : string;
  req_url : string;
  req_user_agent : string;
  req_timeout : Z;
  req_verify : bool
}.

(** What the transport does with one request: it answers with a status
    code, or the call raises. *)
Inductive outcome : Type :=
| Responds (status_code : Z)
| RaisesRequestException
| RaisesOtherException.

Inductive level : Type := INFO | WARNING | ERROR.

(** The records the script logs at level INFO or above (the root logger is
    configured with [level=logging.INFO], so [logging.debug] emits nothing). *)
Inductive message : Type :=
| ErrorTesting (method full_url : string)
| UnexpectedErrorTesting (method full_url : string)
| AnUnexpectedErrorOccurred
| ResultsSavedTo (filename : string)
| ErrorSavingResults (filename : string)
| NoEndpointsSpecified
| AuditingEndpoint (endpoint : string)
| FailedToTest (endpoint : string)
| AuditCompleted.

(** Everything a run does to the outside, in chronological order.
    [printed] holds what goes to standard output, one entry per call: the
    argument of a [print], which ends it with a newline, or the help text
    [argparse] writes.  Standard error receives the log records and the usage
    message of [argparse]; only the former are recorded. *)
Record world : Type := mkWorld {
  sent : list request;
  logged : list (level * message);
  printed : list string;
  written : list (string * string)
}.

Definition initial_world : world := mkWorld [] [] [] [].

Inductive result (A : Type) : Type :=
| Ok (a : A)
| Raise (e : exn).
Arguments Ok {A} a.
Arguments Raise {A} e.

Definition M (A : Type) : Type := world -> result A * world.

Definition ret {A : Type} (a : A) : M A := fun w => (Ok a, w).

Definition raise {A : Type} (e : exn) : M A := fun w => (Raise e, w).

Definition bind {A B : Type} (c : M A) (k : A -> M B) : M B :=
  fun w =>
    match c w with
    | (Ok a, w') => k a w'
    | (Raise e, w') => (Raise e, w')
    end.

Notation "x <- c ;; k" := (bind c (fun x => k))
  (at level 61, c at next level, right associativity).
Notation "c ;;; k" := (bind c (fun _ => k))
  (at level 61, right associativity).

(** [try: body except ...: handler]: [handler e] is [None] when no clause
    matches [e], which then propagates. *)
Definition try_except {A : Type} (body : M A) (handler : exn -> option (M A)) : M A :=
  fun w =>
    match body w with
    | (Ok a, w') => (Ok a, w')
    | (Raise e, w') =>
        match handler e with
        | Some h => h w'
        | None => (Raise e, w')
        end
    end.

(** A [for] loop that threads the local variable it updates. *)
Fixpoint for_each {X S : Type} (body : S -> X -> M S) (xs : list X) (s : S) : M S :=
  match xs with
  | [] => ret s
  | x :: xs' => s' <- body s x ;; for_each body xs' s'
  end.

Definition logging (l : level) (m : message) : M unit :=
  fun w => (Ok tt, mkWorld (sent w) (logged w ++ [(l, m)]) (printed w) (written w)).

(** [print(s)]: one line on standard output ([print] ends it with a newline). *)
Definition print (s : string) : M unit :=
  fun w => (Ok tt, mkWorld (sent w) (logged w) (printed w ++ [s]) (written w)).

Definition sys_exit {A : Type} (code : Z) : M A := raise (SystemExit code).

(** ** JSON text of a report: [json.dumps(results, indent=4)] *)

Definition hex_digit (n : N) : ascii :=
  match n with
  | 0%N => "0" | 1%N => "1" | 2%N => "2" | 3%N => "3" | 4%N => "4"
  | 5%N => "5" | 6%N => "6" | 7%N => "7" | 8%N => "8" | 9%N => "9"
  | 10%N => "a" | 11%N => "b" | 12%N => "c" | 13%N => "d" | 14%N => "e"
  | _ => "f"
  end%char.

Definition char_of (n : nat) : string := String (ascii_of_nat n) "".

Definition backslash : string := char_of 92.
Definition quote : string := char_of 34.
Definition newline : string := char_of 10.

(** The replacement [py_encode_basestring_ascii] makes for one character. *)
Definition escape_char (c : ascii) : string :=
  let n := N_of_ascii c in
  if N.eqb n 34 then backslash ++ quote
  else if N.eqb n 92 then backslash ++ backslash
  else if N.eqb n 10 then backslash ++ "n"
  else if N.eqb n 13 then backslash ++ "r"
  else if N.eqb n 9 then backslash ++ "t"
  else if N.eqb n 12 then backslash ++ "f"
  else if N.eqb n 8 then backslash ++ "b"
  else if (N.leb 32 n) && (N.leb n 126) then String c ""
  else backslash ++ "u00"
       ++ String (hex_digit (N.div n 16)) (String (hex_digit (N.modulo n 16)) "").

Fixpoint escape (s : string) : string :=
  match s with
  | EmptyString => ""
  | String c s' => escape_char c ++ escape s'
  end.

Definition json_string (s : string) : string := quote ++ escape s ++ quote.

Definition json_value (v : pyvalue) : string :=
  match v with
  | PyTrue => "true"
  | PyFalse => "false"
  | PyNone => "null"
  end.

Fixpoint spaces (n : nat) : string :=
  match n with
  | O => ""
  | S n' => " " ++ spaces n'
  end.

(** The items of a dictionary, each on a line of its own, separated by
    commas. *)
Fixpoint json_items {V : Type} (enc : V -> string) (ind : nat) (d : dict V) : string :=
  match d with
  | [] => ""
  | [(k, v)] => newline ++ spaces ind ++ json_string k ++ ": " ++ enc v
  | (k, v) :: d' =>
      newline ++ spaces ind ++ json_string k ++ ": " ++ enc v ++ ","
      ++ json_items enc ind d'
  end.

(** A dictionary at nesting depth [lvl] with four spaces per level. *)
Definition json_dict {V : Type} (enc : V -> string) (lvl : nat) (d : dict V) : string :=
  match d with
  | [] => "{}"
  | _ => "{" ++ json_items enc (4 * S lvl) d ++ newline ++ spaces (4 * lvl) ++ "}"
  end.

Definition json_dumps (all_results : dict (dict pyvalue)) : string :=
  json_dict (json_dict json_value 1) 0 all_results.

(** [s.startswith(p)] *)
Fixpoint startswith (s p : string) {struct p} : bool :=
  match p with
  | EmptyString => true
  | String a p' =>
      match s with
      | EmptyString => false
      | String b s' => Ascii.eqb a b && startswith s' p'
      end
  end.

(** ** The platform's URL join: [urllib.parse.urljoin]

    [urljoin] is not part of the repository.  The model follows
    [Lib/urllib/parse.py] of CPython 3.11 for [str] arguments, a character
    standing for the code point of its number, so that the texts of the model
    are those over the code points below 256.  Two validations are left to
    the platform: that of a bracketed host, and the NFKC test that
    [_checknetloc] applies to a netloc that is not plain ASCII. *)

Module Urllib.

Definition tab : ascii := ascii_of_nat 9.
Definition lf : ascii := ascii_of_nat 10.
Definition cr : ascii := ascii_of_nat 13.

(** [c in _WHATWG_C0_CONTROL_OR_SPACE] *)
Definition c0_control_or_space (c : ascii) : bool := (nat_of_ascii c <=? 32)%nat.

(** [c in _UNSAFE_URL_BYTES_TO_REMOVE] *)
Definition unsafe_byte (c : ascii) : bool :=
  Ascii.eqb c tab || Ascii.eqb c cr || Ascii.eqb c lf.

Definition is_lower (c : ascii) : bool :=
  (97 <=? nat_of_ascii c)%nat && (nat_of_ascii c <=? 122)%nat.
Definition is_upper (c : ascii) : bool :=
  (65 <=? nat_of_ascii c)%nat && (nat_of_ascii c <=? 90)%nat.
Definition is_digit (c : ascii) : bool :=
  (48 <=? nat_of_ascii c)%nat && (nat_of_ascii c <=? 57)%nat.

(** [c.isascii() and c.isalpha()] *)
Definition ascii_alpha (c : ascii) : bool := is_lower c || is_upper c.

(** [c in scheme_chars] *)
Definition scheme_char (c : ascii) : bool :=
  is_lower c || is_upper c || is_digit c
  || Ascii.eqb c "+" || Ascii.eqb c "-" || Ascii.eqb c ".".

Definition lower_char (c : ascii) : ascii :=
  if is_upper c then ascii_of_nat (nat_of_ascii c + 32) else c.

Fixpoint lower (s : string) : string :=
  match s with
  | EmptyString => EmptyString
  | String c s' => String (lower_char c) (lower s')
  end.

Fixpoint lstrip (p : ascii -> bool) (s : string) : string :=
  match s with
  | EmptyString => EmptyString
  | String c s' => if p c then lstrip p s' else s
  end.

Fixpoint rev_string (s acc : string) : string :=
  match s with
  | EmptyString => acc
  | String c s' => rev_string s' (String c acc)
  end.

Definition rstrip (p : ascii -> bool) (s : string) : string :=
  rev_string (lstrip p (rev_string s "")) "".

Definition strip (p : ascii -> bool) (s : string) : string := rstrip p (lstrip p s).

(** [s.replace(b, "")] for every [b] with [p b] *)
Fixpoint remove (p : ascii -> bool) (s : string) : string :=
  match s with
  | EmptyString => EmptyString
  | String c s' => if p c then remove p s' else String c (remove p s')
  end.

Fixpoint all_chars (p : ascii -> bool) (s : string) : bool :=
  match s with
  | EmptyString => true
  | String c s' => p c && all_chars p s'
  end.

(** [c in s] *)
Fixpoint contains (c : ascii) (s : string) : bool :=
  match s with
  | EmptyString => false
  | String c' s' => Ascii.eqb c' c || contains c s'
  end.

(** [s[:n]] and [s[n:]] *)
Fixpoint take (n : nat) (s : string) : string :=
  match n, s with
  | S n', String c s' => String c (take n' s')
  | _, _ => EmptyString
  end.

Fixpoint drop (n : nat) (s : string) : string :=
  match n, s with
  | S n', String _ s' => drop n' s'
  | _, _ => s
  end.

(** [s.find(c)] for the first character satisfying [p]; [None] is -1 *)
Fixpoint find (p : ascii -> bool) (s : string) : option nat :=
  match s with
  | EmptyString => None
  | String c s' => if p c then Some O else option_map S (find p s')
  end.

(** [s.find(c, start)] *)
Definition find_from (p : ascii -> bool) (s : string) (start : nat) : option nat :=
  option_map (Nat.add start) (find p (drop start s)).

(** [s.rfind(c)] *)
Fixpoint rfind (p : ascii -> bool) (s : string) : option nat :=
  match s with
  | EmptyString => None
  | String c s' =>
      match rfind p s' with
      | Some i => Some (S i)
      | None => if p c then Some O else None
      end
  end.

Definition is_char (c : ascii) : ascii -> bool := Ascii.eqb c.

(** [s.split(c, 1)] when [c] is in [s]; [(s, "")] otherwise *)
Definition split_once (c : ascii) (s : string) : string * string :=
  match find (is_char c) s with
  | Some i => (take i s, drop (S i) s)
  | None => (s, EmptyString)
  end.

(** [s.split(c)] *)
Fixpoint split (c : ascii) (s : string) : list string :=
  match s with
  | EmptyString => [EmptyString]
  | String c' s' =>
      if Ascii.eqb c' c then EmptyString :: split c s'
      else match split c s' with
           | seg :: segs => String c' seg :: segs
           | [] => [String c' EmptyString]
           end
  end.

(** [sep.join(l)] *)
Fixpoint join (sep : string) (l : list string) : string :=
  match l with
  | [] => EmptyString
  | [x] => x
  | x :: l' => x ++ sep ++ join sep l'
  end.

Definition nonempty (s : string) : bool :=
  match s with EmptyString => false | _ => true end.

Definition mem (s : string) (l : list string) : bool := existsb (String.eqb s) l.

Definition uses_relative : list string :=
  [""; "ftp"; "http"; "gopher"; "nntp"; "imap"; "wais"; "file"; "https"; "shttp";
   "mms"; "prospero"; "rtsp"; "rtspu"; "sftp"; "svn"; "svn+ssh"; "ws"; "wss"].

Definition uses_netloc : list string :=
  [""; "ftp"; "http"; "gopher"; "nntp"; "telnet"; "imap"; "wais"; "file"; "mms";
   "https"; "shttp"; "snews"; "prospero"; "rtsp"; "rtspu"; "rsync"; "svn";
   "svn+ssh"; "sftp"; "nfs"; "git"; "git+ssh"; "ws"; "wss"].

Definition uses_params : list string :=
  [""; "ftp"; "hdl"; "prospero"; "http"; "imap"; "https"; "shttp"; "rtsp"; "rtspu";
   "sip"; "sips"; "mms"; "sftp"; "tel"].

Record SplitResult : Type := mkSplit {
  s_scheme : string; s_netloc : string; s_path : string;
  s_query : string; s_fragment : string
}.

Record ParseResult : Type := mkParse {
  scheme : string; netloc : string; path : string;
  params : string; query : string; fragment : string
}.

(** The validations of the platform: [true] when the check returns, [false]
    when it raises [ValueError].  [check_bracketed_host] is
    [_check_bracketed_host], which hands the text between the brackets of a
    netloc to [ipaddress.ip_address]; [check_normalized_netloc] is the part
    of [_checknetloc] that normalizes a netloc with [unicodedata] and looks
    for one of [/?#@:] in the normal form. *)
Record checks : Type := mkChecks {
  check_bracketed_host : string -> bool;
  check_normalized_netloc : string -> bool
}.

(** [c.isascii()] *)
Definition is_ascii (c : ascii) : bool := (nat_of_ascii c <? 128)%nat.

Section Parse.

Variable platform : checks.

(** [_checknetloc]: an empty or plain ASCII netloc passes as it is. *)
Definition checknetloc (nl : string) : bool :=
  negb (nonempty nl) || all_chars is_ascii nl || check_normalized_netloc platform nl.

(** [_splitnetloc(url, 2)] *)
Definition splitnetloc (u : string) : string * string :=
  let delim (c : ascii) := Ascii.eqb c "/" || Ascii.eqb c "?" || Ascii.eqb c "#" in
  match find_from delim u 2 with
  | Some d => (take (d - 2) (drop 2 u), drop d u)
  | None => (drop 2 u, EmptyString)
  end.

(** [s.rpartition(c)[2]] *)
Definition after_last (c : ascii) (s : string) : string :=
  match rfind (is_char c) s with
  | Some i => drop (S i) s
  | None => s
  end.

(** [_check_bracketed_netloc]: [true] when it returns, [false] when it
    raises [ValueError]. *)
Definition check_bracketed_netloc (nl : string) : bool :=
  let hostname_and_port := after_last "@" nl in
  match find (is_char "[") hostname_and_port with
  | Some i =>
      let before_bracket := take i hostname_and_port in
      let bracketed := drop (S i) hostname_and_port in
      if nonempty before_bracket then false
      else
        let (hostname, port) := split_once "]" bracketed in
        if nonempty port && negb (startswith port ":") then false
        else check_bracketed_host platform hostname
  | None => check_bracketed_host platform (fst (split_once ":" hostname_and_port))
  end.

(** The scheme test at the head of [urlsplit]: the text before the first
    [:] is the scheme when it starts with an ASCII letter and consists of
    scheme characters. *)
Definition split_scheme (sch u : string) : string * string :=
  match find (is_char ":") u with
  | Some (S i) =>
      if match u with String c _ => ascii_alpha c | EmptyString => false end
         && all_chars scheme_char (take (S i) u)
      then (lower (take (S i) u), drop (S (S i)) u)
      else (sch, u)
  | _ => (sch, u)
  end.

(** The tail of [urlsplit]: fragment first, then query. *)
Definition split_fragment_query (u : string) : string * string * string :=
  let (rest, frag) := if contains "#" u then split_once "#" u else (u, EmptyString) in
  let (rest, qry) := if contains "?" rest then split_once "?" rest
                     else (rest, EmptyString) in
  (rest, qry, frag).

Definition urlsplit (u0 scheme0 : string) : result SplitResult :=
  let u := remove unsafe_byte (lstrip c0_control_or_space u0) in
  let sch := remove unsafe_byte (strip c0_control_or_space scheme0) in
  let (sch, u) := split_scheme sch u in
  if startswith u "//" then
    let (nl, rest) := splitnetloc u in
    if (contains "[" nl && negb (contains "]" nl))
       || (contains "]" nl && negb (contains "[" nl))
    then Raise ValueError
    else if contains "[" nl && contains "]" nl && negb (check_bracketed_netloc nl)
    then Raise ValueError
    else
      let '(rest, qry, frag) := split_fragment_query rest in
      if checknetloc nl then Ok (mkSplit sch nl rest qry frag)
      else Raise ValueError
  else
    let '(rest, qry, frag) := split_fragment_query u in
    Ok (mkSplit sch EmptyString rest qry frag).

Definition splitparams (u : string) : string * string :=
  if contains "/" u then
    match rfind (is_char "/") u with
    | Some r =>
        match find_from (is_char ";") u r with
        | Some i => (take i u, drop (S i) u)
        | None => (u, EmptyString)
        end
    | None => (u, EmptyString)
    end
  else
    match find (is_char ";") u with
    | Some i => (take i u, drop (S i) u)
    | None => (u, EmptyString)
    end.

Definition urlparse (u scheme0 : string) : result ParseResult :=
  match urlsplit u scheme0 with
  | Raise e => Raise e
  | Ok r =>
      let (p, prm) :=
        if mem (s_scheme r) uses_params && contains ";" (s_path r)
        then splitparams (s_path r)
        else (s_path r, EmptyString) in
      Ok (mkParse (s_scheme r) (s_netloc r) p prm (s_query r) (s_fragment r))
  end.

Definition urlunsplit (r : SplitResult) : string :=
  let u := s_path r in
  let u :=
    if nonempty (s_netloc r)
       || (nonempty (s_scheme r) && mem (s_scheme r) uses_netloc
           && negb (startswith u "//"))
    then
      let u := if nonempty u && negb (startswith u "/") then "/" ++ u else u in
      "//" ++ s_netloc r ++ u
    else u in
  let u := if nonempty (s_scheme r) then s_scheme r ++ ":" ++ u else u in
  let u := if nonempty (s_query r) then u ++ "?" ++ s_query r else u in
  if nonempty (s_fragment r) then u ++ "#" ++ s_fragment r else u.

Definition urlunparse (r : ParseResult) : string :=
  let u := if nonempty (params r) then path r ++ ";" ++ params r else path r in
  urlunsplit (mkSplit (scheme r) (netloc r) u (query r) (fragment r)).

(** [segments[1:-1] = filter(None, segments[1:-1])] *)
Definition filter_middle (segments : list string) : list string :=
  match segments with
  | first :: (_ :: _) as others =>
      (first :: filter nonempty (removelast others) ++ [last others EmptyString])%list
  | _ => segments
  end.

(** The loop that resolves [.] and [..]; [resolved] is kept reversed. *)
Fixpoint resolve (segments rev_resolved : list string) : list string :=
  match segments with
  | [] => rev rev_resolved
  | seg :: segments' =>
      if String.eqb seg ".." then resolve segments' (tl rev_resolved)
      else if String.eqb seg "." then resolve segments' rev_resolved
      else resolve segments' (seg :: rev_resolved)
  end.

(** The path of the joined URL, from the path of the base and the non-empty
    path of the reference. *)
Definition resolve_path (bpath rpath : string) : string :=
  let base_parts := split "/" bpath in
  let base_parts :=
    if nonempty (last base_parts EmptyString)
    then removelast base_parts else base_parts in
  let segments :=
    if startswith rpath "/" then split "/" rpath
    else filter_middle (base_parts ++ split "/" rpath)%list in
  let resolved_path := resolve segments [] in
  let resolved_path :=
    if String.eqb (last segments EmptyString) "."
       || String.eqb (last segments EmptyString) ".."
    then (resolved_path ++ [EmptyString])%list else resolved_path in
  let joined := join "/" resolved_path in
  if nonempty joined then joined else "/".

Definition urljoin (base u : string) : result string :=
  if negb (nonempty base) then Ok u
  else if negb (nonempty u) then Ok base
  else
    match urlparse base EmptyString with
    | Raise e => Raise e
    | Ok b =>
        match urlparse u (scheme b) with
        | Raise e => Raise e
        | Ok r =>
            if negb (String.eqb (scheme r) (scheme b)) || negb (mem (scheme r) uses_relative)
            then Ok u
            else if mem (scheme r) uses_netloc && nonempty (netloc r)
            then Ok (urlunparse r)
            else
              let nl := if mem (scheme r) uses_netloc then netloc b else netloc r in
              if negb (nonempty (path r)) && negb (nonempty (params r))
              then
                Ok (urlunparse (mkParse (scheme r) nl (path b) (params b)
                                  (if nonempty (query r) then query r else query b)
                                  (fragment r)))
              else
                Ok (urlunparse (mkParse (scheme r) nl (resolve_path (path b) (path r))
                                  (params r) (query r) (fragment r)))
        end
    end.

End Parse.

End Urllib.

(** ** The script *)

Definition HTTP_METHODS : list string :=
  ["GET"; "HEAD"; "POST"; "PUT"; "DELETE"; "OPTIONS"; "TRACE"; "PATCH"].

(** The namespace [parse_args] returns. *)
Record Namespace : Type := mkNamespace {
  url : string;
  endpoints : option (list string);
  methods : list string;
  output : option string;
  discover : bool;
  user_agent : string;
  timeout : Z;
  ignore_ssl : bool
}.

(** What [parser.parse_args()] does with the command line: it returns a
    namespace, or it leaves the process itself: with status 2 after a usage
    message on standard error for a command line it rejects, with status 0
    after writing the help text on standard output for [-h]. *)
Inductive argparse_outcome : Type :=
| ArgparseError
| ArgparseHelp (help_text : string)
| Parsed (args : Namespace).

(** [sys.stdout.write(s)], as [argparse] does for the help text. *)
Definition stdout_write (s : string) : M unit :=
  fun w => (Ok tt, mkWorld (sent w) (logged w) (printed w ++ [s]) (written w)).

Definition setup_argparse (cmdline : argparse_outcome) : M Namespace :=
  match cmdline with
  | ArgparseError => sys_exit 2
  | ArgparseHelp help_text => stdout_write help_text ;;; sys_exit 0
  | Parsed args => ret args
  end.

Section Script.

(** The platform: [urllib.parse.urljoin], the HTTP transport behind
    [requests.request] (asked with the number of requests sent before, so
    that equal requests may be answered differently) and whether a file
    can be opened for writing. *)
Variable urljoin : string -> string -> result string.
Variable transport : nat -> request -> outcome.
Variable writable : string -> bool.

Definition requests_request (method full_url ua : string) (tmo : Z) (verify : bool)
  : M Z :=
  fun w =>
    let r := mkRequest method full_url ua tmo verify in
    let w' := mkWorld (sent w ++ [r]) (logged w) (printed w) (written w) in
    match transport (length (sent w)) r with
    | Responds status_code => (Ok status_code, w')
    | RaisesRequestException => (Raise RequestException, w')
    | RaisesOtherException => (Raise OtherException, w')
    end.

(** The body of the loop over the methods: the inner [try] statement. *)
Definition probe_method (full_url ua : string) (tmo : Z) (ignore : bool)
    (results : dict pyvalue) (method : string) : M (dict pyvalue) :=
  try_except
    (status_code <- requests_request method full_url ua tmo (negb ignore) ;;
     if (400 <=? status_code) && (status_code <? 600)
     then ret (dict_set results method PyFalse)
     else ret (dict_set results method PyTrue))
    (fun e =>
       if is_RequestException e then
         Some (logging ERROR (ErrorTesting method full_url) ;;;
               ret (dict_set results method PyNone))
       else if is_Exception e then
         Some (logging ERROR (UnexpectedErrorTesting method full_url) ;;;
               ret (dict_set results method PyNone))
       else None).

(** The outer [try] statement and the [return] after it. *)
Definition probe_methods (full_url : string) (meths : list string) (ua : string)
    (tmo : Z) (ignore : bool) : M (option (dict pyvalue)) :=
  try_except
    (results <- for_each (probe_method full_url ua tmo ignore) meths [] ;;
     ret (Some results))
    (fun e =>
       if is_Exception e then
         Some (logging ERROR AnUnexpectedErrorOccurred ;;; ret None)
       else None).

Definition test_http_methods (base endpoint : string) (meths : list string)
    (ua : string) (tmo : Z) (ignore : bool) : M (option (dict pyvalue)) :=
  fun w =>
    match urljoin base endpoint with
    | Ok full_url => probe_methods full_url meths ua tmo ignore w
    | Raise e => (Raise e, w)
    end.

Definition open_and_dump (filename text : string) : M unit :=
  fun w =>
    if writable filename
    then (Ok tt, mkWorld (sent w) (logged w) (printed w) (written w ++ [(filename, text)]))
    else (Raise IOError, w).

Definition save_results_to_file (results : dict (dict pyvalue)) (filename : string)
  : M unit :=
  try_except
    (open_and_dump filename (json_dumps results) ;;;
     logging INFO (ResultsSavedTo filename))
    (fun e =>
       if is_IOError e then Some (logging ERROR (ErrorSavingResults filename))
       else None).

(** What the loop over the endpoints does with the prober's answer. *)
Definition collect (all_results : dict (dict pyvalue)) (endpoint : string)
    (results : option (dict pyvalue)) : M (dict (dict pyvalue)) :=
  if truthy results then
    match results with
    | Some report => ret (dict_set all_results endpoint report)
    | None => ret all_results
    end
  else logging ERROR (FailedToTest endpoint) ;;; ret all_results.

Definition audit_endpoint (args : Namespace) (all_results : dict (dict pyvalue))
    (endpoint : string) : M (dict (dict pyvalue)) :=
  logging INFO (AuditingEndpoint endpoint) ;;;
  results <- test_http_methods (url args) endpoint (methods args)
               (user_agent args) (timeout args) (ignore_ssl args) ;;
  collect all_results endpoint results.

(** [main] from the input validation to the end of the loop: the run's
    report [all_results]. *)
Definition audit (args : Namespace) : M (dict (dict pyvalue)) :=
  (if negb (startswith (url args) "http://") && negb (startswith (url args) "https://")
   then print "Error: URL must start with http:// or https://" ;;; sys_exit 1
   else ret tt) ;;;
  match endpoints args with
  | None =>
      logging WARNING NoEndpointsSpecified ;;;
      print "Error: No endpoints specified, this tool requires you to explicitly list the endpoints. Example: -e /admin /api/v1" ;;;
      sys_exit 1
  | Some eps => for_each (audit_endpoint args) eps []
  end.

Definition emit (args : Namespace) (all_results : dict (dict pyvalue)) : M unit :=
  match output args with
  | Some (String c f) => save_results_to_file all_results (String c f)
  | _ => print (json_dumps all_results)
  end.

Definition main (cmdline : argparse_outcome) : M unit :=
  args <- setup_argparse cmdline ;;
  all_results <- audit args ;;
  emit args all_results ;;;
  logging INFO AuditCompleted.

End Script.

(** The status the process ends with: 0 when [main] returns, the code of a
    [SystemExit], and 1 when any other exception reaches the top level. *)
Definition exit_status {A : Type} (r : result A) : Z :=
  match r with
  | Ok _ => 0
  | Raise (SystemExit code) => code
  | Raise _ => 1
  end.

(** ** Notions used to state the properties *)

(** The value the inner [try] statement stores for one request. *)
Definition classify (o : outcome) : pyvalue :=
  match o with
  | Responds status_code =>
      if (400 <=? status_code) && (status_code <? 600) then Denied else Allowed
  | RaisesRequestException => Error
  | RaisesOtherException => Error
  end.

(** The record the inner [try] statement logs for one request, if any. *)
Definition probe_record (method full_url : string) (o : outcome)
  : list (level * message) :=
  match o with
  | Responds _ => []
  | RaisesRequestException => [(ERROR, ErrorTesting method full_url)]
  | RaisesOtherException => [(ERROR, UnexpectedErrorTesting method full_url)]
  end.

(** The distinct names of a list, in the order of their first occurrence. *)
Fixpoint first_occurrences (l : list string) : list string :=
  match l with
  | [] => []
  | x :: l' => x :: filter (fun y => negb (String.eqb x y)) (first_occurrences l')
  end.

(** The keys of a dictionary after [d[k] = ...]. *)
Fixpoint add_key (ks : list string) (k : string) : list string :=
  match ks with
  | [] => [k]
  | k' :: ks' => if String.eqb k' k then ks else k' :: add_key ks' k
  end.

(** The startup checks of [main] that end the run with status 1. *)
Definition usage_error (args : Namespace) : Prop :=
  (startswith (url args) "http://" = false /\ startswith (url args) "https://" = false)
  \/ endpoints args = None.

(** Whether a name is missing from a list of keys. *)
Definition absent (ks : list string) (y : string) : bool :=
  negb (existsb (String.eqb y) ks).

Section Probing.

Variable transport : nat -> request -> outcome.
Variables (full_url ua : string) (tmo : Z) (ignore : bool).

Definition request_for (method : string) : request :=
  mkRequest method full_url ua tmo (negb ignore).

(** The dictionary the loop over the methods builds, [n] requests having
    been sent before it starts. *)
Fixpoint probe_fold (n : nat) (results : dict pyvalue) (meths : list string)
  : dict pyvalue :=
  match meths with
  | [] => results
  | m :: meths' =>
      probe_fold (S n) (dict_set results m (classify (transport n (request_for m))))
        meths'
  end.

(** The records the loop logs. *)
Fixpoint probe_log (n : nat) (meths : list string) : list (level * message) :=
  match meths with
  | [] => []
  | m :: meths' =>
      (probe_record m full_url (transport n (request_for m)) ++ probe_log (S n) meths')%list
  end.

End Probing.

(** What the join puts after the base's scheme and host when the reference
    is an absolute path: the resolved path with its parameters, query and
    fragment. *)
Definition reference_tail (pth prm qry frag : string) : string :=
  let u := if Urllib.nonempty prm then pth ++ ";" ++ prm else pth in
  let u := if Urllib.nonempty u && negb (startswith u "/") then "/" ++ u else u in
  u ++ (if Urllib.nonempty qry then "?" ++ qry else "")
    ++ (if Urllib.nonempty frag then "#" ++ frag else "").

(** ** A sample platform for concrete runs *)

(** A platform whose validations accept every bracketed host and every
    netloc (below code point 256 the NFKC test of CPython finds nothing). *)
Definition any_bracketed_host (_ : string) : bool := true.
Definition any_netloc (_ : string) : bool := true.
Definition lenient : Urllib.checks := Urllib.mkChecks any_bracketed_host any_netloc.

Definition py_urljoin : string -> string -> result string :=
  Urllib.urljoin lenient.

(** A stub transport: [GET] is answered with 200 when an even number of
    requests went before it and with 503 otherwise, [PUT] with 403, [HEAD]
    with 301, [TRACE] and [OPTIONS] fail, everything else gets 404. *)
Definition stub_transport (n : nat) (r : request) : outcome :=
  if String.eqb (req_method r) "GET"
  then (if Nat.even n then Responds 200 else Responds 503)
  else if String.eqb (req_method r) "PUT" then Responds 403
  else if String.eqb (req_method r) "HEAD" then Responds 301
  else if String.eqb (req_method r) "TRACE" then RaisesRequestException
  else if String.eqb (req_method r) "OPTIONS" then RaisesOtherException
  else Responds 404.

Definition read_only (_ : string) : bool := false.
Definition read_write (_ : string) : bool := true.

(** The sample run asked to store its report in a file. *)
Definition stored_args : Namespace :=
  mkNamespace "https://example.com" (Some ["/admin"]) ["GET"; "PUT"]
    (Some "report.json") false "VulnHTTPMethodAuditor/1.0" 10 false.

Definition sample_args : Namespace :=
  mkNamespace "https://example.com" (Some ["/admin"]) ["GET"; "PUT"] None false
    "VulnHTTPMethodAuditor/1.0" 10 false.

(** A run whose first endpoint cannot be joined to the base URL. *)
Definition unjoinable_args : Namespace :=
  mkNamespace "https://example.com" (Some ["//["; "/admin"]) HTTP_METHODS None false
    "VulnHTTPMethodAuditor/1.0" 10 false.

(** ** Notions used to state the further properties *)

(** A request the configuration accounts for: a configured method sent with
    the configured user agent, timeout and certificate check to the join of
    the base URL and a configured endpoint. *)
Definition configured_request (urljoin : string -> string -> result string)
    (args : Namespace) (r : request) : Prop :=
  In (req_method r) (methods args)
  /\ req_user_agent r = user_agent args
  /\ req_timeout r = timeout args
  /\ req_verify r = negb (ignore_ssl args)
  /\ exists eps e,
       endpoints args = Some eps /\ In e eps /\ urljoin (url args) e = Ok (req_url r).

(** The endpoints announced by the [Auditing endpoint] records of a log. *)
Definition announced (log : list (level * message)) : list string :=
  flat_map (fun record =>
              match snd record with
              | AuditingEndpoint endpoint => [endpoint]
              | _ => []
              end) log.

(** The endpoints reported as failed by the records of a log. *)
Definition reported_failed (log : list (level * message)) : list string :=
  flat_map (fun record =>
              match snd record with
              | FailedToTest endpoint => [endpoint]
              | _ => []
              end) log.

(** A transport whose answer to a request does not depend on how many
    requests went before. *)
Definition steady (transport : nat -> request -> outcome) : Prop :=
  forall n n' r, transport n r = transport n' r.

(** Printable ASCII, or the line feed that separates the lines of the JSON
    text. *)
Definition plain_char (c : ascii) : bool :=
  ((32 <=? nat_of_ascii c)%nat && (nat_of_ascii c <=? 126)%nat)
  || (nat_of_ascii c =? 10)%nat.



(** Whether a request failed. *)
Definition failed (o : outcome) : bool :=
  match o with
  | Responds _ => false
  | _ => true
  end.

(** The number of failed requests among those of a method list, [n]
    requests having been sent before. *)
Fixpoint failures (transport : nat -> request -> outcome) (full_url ua : string)
    (tmo : Z) (ignore : bool) (n : nat) (meths : list string) : nat :=
  match meths with
  | [] => O
  | m :: meths' =>
      ((if failed (transport n (request_for full_url ua tmo ignore m)) then 1 else 0)
       + failures transport full_url ua tmo ignore (S n) meths')%nat
  end.

(** The stub transport made steady: every request is answered as if it were
    the first. *)
Definition steady_stub (n : nat) (r : request) : outcome := stub_transport 0 r.

(** A run over two endpoints, the first of them listed twice. *)
Definition repeated_args : Namespace :=
  mkNamespace "https://example.com" (Some ["/admin"; "/api"; "/admin"]) ["GET"; "TRACE"]
    None false "VulnHTTPMethodAuditor/1.0" 10 true.

(** * Properties *)

(** ** Dictionaries and their keys *)

Lemma keys_dict_set {V : Type} (d : dict V) (k : string) (v : V) :
  keys (dict_set d k v) = add_key (keys d) k.
Proof.
  induction d as [|[k' v'] d IH]; simpl; [reflexivity|].
  destruct (String.eqb k' k); simpl; [reflexivity|].
  now rewrite IH.
Qed.

Lemma dict_get_set_same {V : Type} (d : dict V) (k : string) (v : V) :
  dict_get (dict_set d k v) k = Some v.
Proof.
  induction d as [|[k' v'] d IH]; simpl.
  - now rewrite String.eqb_refl.
  - destruct (String.eqb k' k) eqn:E; simpl; rewrite E; [reflexivity | exact IH].
Qed.

Lemma dict_get_set_other {V : Type} (d : dict V) (k k' : string) (v : V) :
  k <> k' -> dict_get (dict_set d k v) k' = dict_get d k'.
Proof.
  intros Hne.
  induction d as [|[k0 v0] d IH]; simpl.
  - destruct (String.eqb_spec k k'); [contradiction | reflexivity].
  - destruct (String.eqb_spec k0 k) as [->|Hk]; simpl.
    + destruct (String.eqb_spec k k'); [contradiction | reflexivity].
    + now rewrite IH.
Qed.

Lemma dict_get_keys {V : Type} (d : dict V) (k : string) :
  In k (keys d) <-> exists v, dict_get d k = Some v.
Proof.
  induction d as [|[k0 v0] d IH]; simpl.
  - split; [tauto | intros [v Hv]; discriminate].
  - destruct (String.eqb_spec k0 k) as [->|Hk].
    + split; [eauto | auto].
    + rewrite <- IH. split; [intros [H|H]; [contradiction | exact H] | auto].
Qed.

Lemma add_key_in (ks : list string) (k : string) :
  In k ks -> add_key ks k = ks.
Proof.
  induction ks as [|k' ks IH]; simpl; [tauto|].
  intros H. destruct (String.eqb_spec k' k) as [->|Hk]; [reflexivity|].
  destruct H as [H|H]; [contradiction | now rewrite IH].
Qed.

Lemma add_key_fresh (ks : list string) (k : string) :
  ~ In k ks -> add_key ks k = (ks ++ [k])%list.
Proof.
  induction ks as [|k' ks IH]; simpl; [reflexivity|].
  intros H. destruct (String.eqb_spec k' k) as [->|Hk]; [tauto|].
  rewrite IH; tauto.
Qed.

Lemma absent_false (ks : list string) (y : string) :
  In y ks -> absent ks y = false.
Proof.
  intros H. unfold absent. apply negb_false_iff, existsb_exists.
  exists y. split; [exact H | apply String.eqb_refl].
Qed.

Lemma absent_true (ks : list string) (y : string) :
  ~ In y ks -> absent ks y = true.
Proof.
  intros H. unfold absent. apply negb_true_iff.
  destruct (existsb (String.eqb y) ks) eqn:E; [|reflexivity].
  apply existsb_exists in E. destruct E as [z [Hz Hyz]].
  apply String.eqb_eq in Hyz. subst z. contradiction.
Qed.

Lemma filter_filter {A : Type} (p q : A -> bool) (l : list A) :
  filter p (filter q l) = filter (fun x => q x && p x) l.
Proof.
  induction l as [|a l IH]; simpl; [reflexivity|].
  destruct (q a); simpl; [destruct (p a)|]; now rewrite IH.
Qed.

(** Assigning the names of [l] one after the other to a dictionary with keys
    [ks] appends the new names in the order of their first occurrence. *)
Lemma fold_add_key (l ks : list string) :
  fold_left add_key l ks = (ks ++ filter (absent ks) (first_occurrences l))%list.
Proof.
  revert ks. induction l as [|x l IH]; intros ks; simpl.
  - now rewrite app_nil_r.
  - destruct (in_dec string_dec x ks) as [Hin|Hout].
    + rewrite add_key_in by exact Hin. rewrite IH.
      rewrite (absent_false ks x Hin). f_equal.
      rewrite filter_filter. apply filter_ext_in. intros y _.
      destruct (String.eqb_spec x y) as [<-|Hxy]; simpl; [|reflexivity].
      now rewrite (absent_false ks x Hin).
    + rewrite add_key_fresh by exact Hout. rewrite IH.
      rewrite (absent_true ks x Hout). rewrite <- app_assoc. simpl. do 2 f_equal.
      rewrite filter_filter. apply filter_ext_in. intros y _.
      unfold absent. rewrite existsb_app. simpl. rewrite orb_false_r.
      rewrite negb_orb. rewrite (String.eqb_sym y x). apply andb_comm.
  Qed.

Lemma first_occurrences_in (l : list string) (x : string) :
  In x (first_occurrences l) <-> In x l.
Proof.
  induction l as [|a l IH]; simpl; [tauto|].
  rewrite filter_In, IH.
  destruct (String.eqb_spec a x) as [->|Hax]; simpl.
  - split; [auto | intros _; now left].
  - split.
    + intros [H|[H _]]; [now left | now right].
    + intros [H|H]; [contradiction | right; split; [exact H | reflexivity]].
Qed.

Lemma first_occurrences_NoDup (l : list string) : NoDup (first_occurrences l).
Proof.
  induction l as [|a l IH]; simpl; constructor.
  - rewrite filter_In. intros [_ H]. now rewrite String.eqb_refl in H.
  - now apply NoDup_filter.
Qed.

Lemma first_occurrences_id (l : list string) :
  NoDup l -> first_occurrences l = l.
Proof.
  induction 1 as [|a l Hout Hnd IH]; simpl; [reflexivity|].
  rewrite IH. f_equal.
  apply forallb_filter_id. apply forallb_forall. intros y Hy.
  destruct (String.eqb_spec a y) as [->|]; [contradiction | reflexivity].
Qed.

(** ** The loop over the methods *)

Section ProbingFacts.

Variable transport : nat -> request -> outcome.
Variables (full_url ua : string) (tmo : Z) (ignore : bool).

Local Abbreviation req := (request_for full_url ua tmo ignore).
Local Abbreviation pfold := (probe_fold transport full_url ua tmo ignore).
Local Abbreviation plog := (probe_log transport full_url ua tmo ignore).

Lemma probe_method_run (results : dict pyvalue) (m : string) (w : world) :
  probe_method transport full_url ua tmo ignore results m w
  = (Ok (dict_set results m (classify (transport (length (sent w)) (req m)))),
     mkWorld (sent w ++ [req m])
       (logged w ++ probe_record m full_url (transport (length (sent w)) (req m)))
       (printed w) (written w)).
Proof.
  unfold probe_method, try_except, bind, requests_request, request_for.
  destruct (transport _ _) as [sc| |]; simpl.
  - rewrite app_nil_r. now destruct ((400 <=? sc) && (sc <? 600)).
  - reflexivity.
  - reflexivity.
Qed.

Lemma for_each_probe (meths : list string) (results : dict pyvalue) (w : world) :
  for_each (probe_method transport full_url ua tmo ignore) meths results w
  = (Ok (pfold (length (sent w)) results meths),
     mkWorld (sent w ++ map req meths) (logged w ++ plog (length (sent w)) meths)
       (printed w) (written w)).
Proof.
  revert results w. induction meths as [|m meths IH]; intros results w; simpl.
  - unfold ret. rewrite !app_nil_r. now destruct w.
  - unfold bind. rewrite probe_method_run. rewrite IH. simpl.
    rewrite length_app. simpl. rewrite Nat.add_1_r.
    now rewrite <- !app_assoc.
Qed.

Lemma probe_methods_run (meths : list string) (w : world) :
  probe_methods transport full_url meths ua tmo ignore w
  = (Ok (Some (pfold (length (sent w)) [] meths)),
     mkWorld (sent w ++ map req meths) (logged w ++ plog (length (sent w)) meths)
       (printed w) (written w)).
Proof.
  unfold probe_methods, try_except, bind. now rewrite for_each_probe.
Qed.

Lemma probe_fold_app (n : nat) (results : dict pyvalue) (a b : list string) :
  pfold n results (a ++ b) = pfold (n + length a) (pfold n results a) b.
Proof.
  revert n results. induction a as [|m a IH]; intros n results; simpl.
  - now rewrite Nat.add_0_r.
  - rewrite IH. f_equal. lia.
Qed.

Lemma probe_fold_get_other (n : nat) (results : dict pyvalue) (meths : list string)
    (m : string) :
  ~ In m meths -> dict_get (pfold n results meths) m = dict_get results m.
Proof.
  revert n results. induction meths as [|a meths IH]; intros n results H; simpl.
  - reflexivity.
  - rewrite IH by (simpl in H; tauto).
    apply dict_get_set_other. simpl in H. intros ->. tauto.
Qed.

(** The value kept for a name is the one stored for its last occurrence. *)
Lemma probe_fold_get_last (n : nat) (results : dict pyvalue)
    (pre post : list string) (m : string) :
  ~ In m post ->
  dict_get (pfold n results (pre ++ m :: post)) m
  = Some (classify (transport (n + length pre) (req m))).
Proof.
  intros H. rewrite probe_fold_app. simpl.
  rewrite probe_fold_get_other by exact H.
  apply dict_get_set_same.
Qed.

Lemma probe_fold_keys (n : nat) (results : dict pyvalue) (meths : list string) :
  keys (pfold n results meths) = fold_left add_key meths (keys results).
Proof.
  revert n results. induction meths as [|a meths IH]; intros n results; simpl.
  - reflexivity.
  - rewrite IH. now rewrite keys_dict_set.
Qed.

Lemma probe_fold_keys_fresh (n : nat) (meths : list string) :
  keys (pfold n [] meths) = first_occurrences meths.
Proof.
  rewrite probe_fold_keys, fold_add_key. simpl.
  apply forallb_filter_id. apply forallb_forall. intros y _. reflexivity.
Qed.

Lemma probe_fold_empty (n : nat) (meths : list string) :
  pfold n [] meths = [] <-> meths = [].
Proof.
  split; [|intros ->; reflexivity].
  intros H. pose proof (probe_fold_keys_fresh n meths) as K.
  rewrite H in K. simpl in K. destruct meths; [reflexivity | discriminate].
Qed.

End ProbingFacts.

(** ** The prober *)

Section ProberFacts.

Variable urljoin : string -> string -> result string.
Variable transport : nat -> request -> outcome.

Lemma test_http_methods_run (base endpoint : string) (meths : list string)
  (ua : string) (tmo : Z) (ignore : bool) (w : world) :
test_http_methods urljoin transport base endpoint meths ua tmo ignore w
= match urljoin base endpoint with
  | Ok full_url =>
      (Ok (Some (probe_fold transport full_url ua tmo ignore (length (sent w)) [] meths)),
       mkWorld (sent w ++ map (request_for full_url ua tmo ignore) meths)
         (logged w ++ probe_log transport full_url ua tmo ignore (length (sent w)) meths)
         (printed w) (written w))
  | Raise e => (Raise e, w)
  end.
Proof.
unfold test_http_methods. destruct (urljoin base endpoint); [|reflexivity].
apply probe_methods_run.
Qed.

Lemma in_range_spec (sc : Z) :
(400 <=? sc) && (sc <? 600) = true <-> 400 <= sc < 600.
Proof. rewrite andb_true_iff, Z.leb_le, Z.ltb_lt. tauto. Qed.

Lemma classify_responds (sc : Z) :
(400 <= sc < 600 -> classify (Responds sc) = Denied)
/\ (~ 400 <= sc < 600 -> classify (Responds sc) = Allowed).
Proof.
unfold classify. destruct ((400 <=? sc) && (sc <? 600)) eqn:E.
- apply in_range_spec in E. split; [reflexivity | tauto].
- split; [|reflexivity]. intros H. apply in_range_spec in H. congruence.
Qed.

(** C1: when the transport answers a probe with status code [sc], the value
  stored for the method depends on [sc] alone: [Denied] (JSON [false]) when
  [400 <= sc < 600], [Allowed] (JSON [true]) for every other code.  This is
  what the dictionary holds right after that probe, and what the returned
  report holds when the method is not probed again later. *)
Theorem status_code_decides_result
  (base endpoint full_url : string) (pre : list string) (method : string)
  (post : list string) (ua : string) (tmo : Z) (ignore : bool) (w : world) (sc : Z) :
urljoin base endpoint = Ok full_url ->
transport (length (sent w) + length pre) (request_for full_url ua tmo ignore method)
= Responds sc ->
exists recorded,
  (400 <= sc < 600 -> recorded = Denied /\ json_value recorded = "false")
  /\ (~ 400 <= sc < 600 -> recorded = Allowed /\ json_value recorded = "true")
  /\ (exists results,
        fst (for_each (probe_method transport full_url ua tmo ignore)
               (pre ++ [method]) [] w) = Ok results
        /\ dict_get results method = Some recorded)
  /\ (~ In method post ->
      exists report,
        fst (test_http_methods urljoin transport base endpoint
               (pre ++ method :: post) ua tmo ignore w) = Ok (Some report)
        /\ dict_get report method = Some recorded).
Proof.
intros Hjoin Hresp.
exists (classify (transport (length (sent w) + length pre)
                    (request_for full_url ua tmo ignore method))).
destruct (classify_responds sc) as [Hin Hout].
split; [intros H; rewrite Hresp, (Hin H); now split|].
split; [intros H; rewrite Hresp, (Hout H); now split|].
clear Hresp Hin Hout. split.
- eexists. rewrite for_each_probe. cbn [fst]. split; [reflexivity|].
  apply probe_fold_get_last. simpl. tauto.
- intros Hlast. eexists. rewrite test_http_methods_run, Hjoin. cbn [fst].
  split; [reflexivity|]. now apply probe_fold_get_last.
Qed.

(** C2: when the request for a method raises (a [RequestException] or any
  other exception), [None] is stored for that method, the prober still
  sends the requests of all the methods of the list, in order, and returns
  a report in which every method holds the value of its own last probe. *)
Theorem transport_fault_records_error_and_continues
  (base endpoint full_url : string) (pre : list string) (method : string)
  (post : list string) (ua : string) (tmo : Z) (ignore : bool) (w : world) :
urljoin base endpoint = Ok full_url ->
(transport (length (sent w) + length pre) (request_for full_url ua tmo ignore method)
 = RaisesRequestException
 \/ transport (length (sent w) + length pre) (request_for full_url ua tmo ignore method)
    = RaisesOtherException) ->
json_value Error = "null"
/\ (exists results,
      fst (for_each (probe_method transport full_url ua tmo ignore)
             (pre ++ [method]) [] w) = Ok results
      /\ dict_get results method = Some Error)
/\ exists report,
     fst (test_http_methods urljoin transport base endpoint
            (pre ++ method :: post) ua tmo ignore w) = Ok (Some report)
     /\ sent (snd (test_http_methods urljoin transport base endpoint
                     (pre ++ method :: post) ua tmo ignore w))
        = (sent w ++ map (request_for full_url ua tmo ignore) (pre ++ method :: post))%list
     /\ (~ In method post -> dict_get report method = Some Error)
     /\ forall (pre' : list string) (sibling : string) (post' : list string),
          (pre ++ method :: post = pre' ++ sibling :: post')%list ->
          ~ In sibling post' ->
          dict_get report sibling
          = Some (classify (transport (length (sent w) + length pre')
                              (request_for full_url ua tmo ignore sibling))).
Proof.
intros Hjoin Hfail.
assert (Hc : classify (transport (length (sent w) + length pre)
                         (request_for full_url ua tmo ignore method)) = Error)
  by (destruct Hfail as [-> | ->]; reflexivity).
split; [reflexivity|]. split.
- eexists. rewrite for_each_probe. cbn [fst]. split; [reflexivity|].
  rewrite <- Hc. apply probe_fold_get_last. simpl. tauto.
- eexists. rewrite test_http_methods_run, Hjoin. cbn [fst snd sent].
  split; [reflexivity|]. split; [reflexivity|]. split.
  + intros Hlast. rewrite <- Hc. now apply probe_fold_get_last.
  + intros pre' sibling post' -> Hlast. now apply probe_fold_get_last.
Qed.

(** C8, amended: the outer [except] branch of the prober is never taken.
    On every input on which the URL join returns, whatever the transport
    does with each request (an answer, or an exception of that one
    attempt), [test_http_methods] returns a report: the [try] statement
    returns one for every joined URL, the function does not return [None],
    and the record of the outer handler is not logged. *)
Theorem outer_failure_branch_unreachable
    (base endpoint full_url : string) (meths : list string) (ua : string) (tmo : Z)
    (ignore : bool) (w : world) :
  urljoin base endpoint = Ok full_url ->
  (exists report,
      fst (test_http_methods urljoin transport base endpoint meths ua tmo ignore w)
      = Ok (Some report)
      /\ fst (probe_methods transport full_url meths ua tmo ignore w) = Ok (Some report))
  /\ fst (test_http_methods urljoin transport base endpoint meths ua tmo ignore w)
     <> Ok None
  /\ (~ In (ERROR, AnUnexpectedErrorOccurred) (logged w) ->
      ~ In (ERROR, AnUnexpectedErrorOccurred)
          (logged (snd (test_http_methods urljoin transport base endpoint meths
                          ua tmo ignore w)))).
Proof.
  intros Hjoin. rewrite test_http_methods_run, probe_methods_run, Hjoin.
  cbn [fst snd logged].
  split; [eexists; split; reflexivity|]. split; [discriminate|].
  intros Hw Hin. apply in_app_or in Hin. destruct Hin as [Hin|Hin]; [tauto|].
  clear Hw. revert Hin. generalize (length (sent w)).
  induction meths as [|m ms IH]; intros n; simpl; [tauto|].
  intros Hin. apply in_app_or in Hin. destruct Hin as [Hin|Hin]; [|eapply IH; eassumption].
  destruct (transport n _); simpl in Hin; [tauto| |];
    destruct Hin as [Hin|[]]; discriminate.
Qed.

(** C9: with a method name repeated in the list, one request is still sent
  per occurrence, in list order, but the report holds a single entry for
  the name, and its value is the one stored for the last request sent for
  that name. *)
Theorem repeated_method_keeps_last_result
  (base endpoint full_url : string) (meths : list string) (ua : string) (tmo : Z)
  (ignore : bool) (w : world) :
urljoin base endpoint = Ok full_url ->
exists report,
  fst (test_http_methods urljoin transport base endpoint meths ua tmo ignore w)
  = Ok (Some report)
  /\ sent (snd (test_http_methods urljoin transport base endpoint meths ua tmo ignore w))
     = (sent w ++ map (request_for full_url ua tmo ignore) meths)%list
  /\ (forall m, In m meths -> count_occ string_dec (keys report) m = 1%nat)
  /\ forall (pre : list string) (m : string) (post : list string),
       meths = (pre ++ m :: post)%list ->
       ~ In m post ->
       dict_get report m
       = Some (classify (transport (length (sent w) + length pre)
                           (request_for full_url ua tmo ignore m))).
Proof.
intros Hjoin. eexists. rewrite test_http_methods_run, Hjoin. cbn [fst snd sent].
split; [reflexivity|]. split; [reflexivity|]. split.
- intros m Hm. rewrite probe_fold_keys_fresh.
  apply NoDup_count_occ'; [apply first_occurrences_NoDup|].
  now apply first_occurrences_in.
- intros pre m post -> Hlast. now apply probe_fold_get_last.
Qed.

End ProberFacts.

(** ** The orchestrator *)

Section MainFacts.

Variable urljoin : string -> string -> result string.
Variable transport : nat -> request -> outcome.

Lemma audit_endpoint_run (args : Namespace) (all_results : dict (dict pyvalue))
  (endpoint : string) (w : world) :
audit_endpoint urljoin transport args all_results endpoint w
= match urljoin (url args) endpoint with
  | Raise e =>
      (Raise e,
       mkWorld (sent w) (logged w ++ [(INFO, AuditingEndpoint endpoint)])
         (printed w) (written w))
  | Ok full_url =>
      let report :=
        probe_fold transport full_url (user_agent args) (timeout args) (ignore_ssl args)
          (length (sent w)) [] (methods args) in
      (Ok (match methods args with
           | [] => all_results
           | _ :: _ => dict_set all_results endpoint report
           end),
       mkWorld
         (sent w ++ map (request_for full_url (user_agent args) (timeout args)
                           (ignore_ssl args)) (methods args))
         (logged w ++ [(INFO, AuditingEndpoint endpoint)]
          ++ probe_log transport full_url (user_agent args) (timeout args)
               (ignore_ssl args) (length (sent w)) (methods args)
          ++ match methods args with
             | [] => [(ERROR, FailedToTest endpoint)]
             | _ :: _ => []
             end)
         (printed w) (written w))
  end.
Proof.
unfold audit_endpoint, bind, logging. rewrite test_http_methods_run. cbn [sent logged printed written].
destruct (urljoin (url args) endpoint) as [full_url|e]; [|reflexivity].
destruct (methods args) as [|m ms] eqn:Em.
- simpl. unfold collect, truthy, bind, logging, ret. cbn [sent logged printed written].
  now rewrite !app_nil_r, <- !app_assoc.
- match goal with |- context [Some ?r] => destruct r as [|item items] eqn:Er end.
  + apply probe_fold_empty in Er. discriminate.
  + unfold collect, truthy, ret. cbn [sent logged printed written].
    now rewrite !app_nil_r, <- !app_assoc.
Qed.

Lemma dict_set_Forall {V : Type} (Q : V -> Prop) (d : dict V) (k : string) (v : V) :
Forall (fun kv => Q (snd kv)) d -> Q v ->
Forall (fun kv => Q (snd kv)) (dict_set d k v).
Proof.
intros Hd Hv. induction Hd as [|[k0 v0] d Hkv Hd IHd]; simpl.
- constructor; [exact Hv | constructor].
- destruct (String.eqb k0 k); constructor; assumption.
Qed.

(** Every report stored by the loop over the endpoints has the distinct
  configured methods as its keys. *)
Lemma audit_loop_keys (args : Namespace) (eps : list string)
  (all_results all_results' : dict (dict pyvalue)) (w w' : world) :
for_each (audit_endpoint urljoin transport args) eps all_results w
= (Ok all_results', w') ->
Forall (fun kv => keys (snd kv) = first_occurrences (methods args)) all_results ->
Forall (fun kv => keys (snd kv) = first_occurrences (methods args)) all_results'.
Proof.
revert all_results w. induction eps as [|e eps IH]; intros all_results w; simpl.
- unfold ret. intros [= <- <-]. tauto.
- unfold bind. rewrite audit_endpoint_run.
  destruct (urljoin (url args) e) as [full_url|ex]; [|discriminate].
  cbv zeta. intros Hrun Hall. apply IH in Hrun; [exact Hrun|].
  destruct (methods args) as [|m ms]; [exact Hall|].
  apply (dict_set_Forall (fun r => keys r = first_occurrences (m :: ms)));
    [exact Hall | apply probe_fold_keys_fresh].
Qed.

Lemma dict_get_In {V : Type} (d : dict V) (k : string) (v : V) :
dict_get d k = Some v -> exists k', In (k', v) d.
Proof.
induction d as [|[k0 v0] d IH]; simpl; [discriminate|].
destruct (String.eqb k0 k).
- intros [= ->]. eauto.
- intros H. destruct (IH H) as [k' Hk']. eauto.
Qed.

Lemma audit_cases (args : Namespace) (w : world) :
audit urljoin transport args w
= if negb (startswith (url args) "http://") && negb (startswith (url args) "https://")
  then (Raise (SystemExit 1),
        mkWorld (sent w) (logged w)
          (printed w ++ ["Error: URL must start with http:// or https://"])
          (written w))
  else match endpoints args with
       | None =>
           (Raise (SystemExit 1),
            mkWorld (sent w) (logged w ++ [(WARNING, NoEndpointsSpecified)])
              (printed w ++ ["Error: No endpoints specified, this tool requires you to explicitly list the endpoints. Example: -e /admin /api/v1"])
              (written w))
       | Some eps => for_each (audit_endpoint urljoin transport args) eps [] w
       end.
Proof.
unfold audit, bind.
destruct (negb (startswith (url args) "http://") && negb (startswith (url args) "https://"));
  [reflexivity|].
unfold ret. destruct (endpoints args); reflexivity.
Qed.

(** C3: in the report of a run, the entry of every endpoint has the distinct
  configured method names as its keys: each configured name is a key and
  nothing else is, no key occurs twice, the keys stand in the order in
  which the names first occur in the configured list (they are that list
  when it has no repetition), and every key holds one of the three
  values. *)
Theorem report_has_the_configured_methods_as_keys
  (args : Namespace) (w w' : world) (all_results : dict (dict pyvalue))
  (endpoint : string) (report : dict pyvalue) :
audit urljoin transport args w = (Ok all_results, w') ->
dict_get all_results endpoint = Some report ->
keys report = first_occurrences (methods args)
/\ NoDup (keys report)
/\ (forall m, In m (keys report) <-> In m (methods args))
/\ (forall m, In m (methods args) -> count_occ string_dec (keys report) m = 1%nat)
/\ (NoDup (methods args) -> keys report = methods args)
/\ forall m, In m (methods args) ->
     exists v, dict_get report m = Some v /\ (v = Allowed \/ v = Denied \/ v = Error).
Proof.
intros Hrun Hget. rewrite audit_cases in Hrun.
destruct (negb _ && negb _); [discriminate|].
destruct (endpoints args) as [eps|]; [|discriminate].
apply audit_loop_keys in Hrun; [|constructor].
destruct (dict_get_In _ _ _ Hget) as [k' Hin].
rewrite Forall_forall in Hrun. specialize (Hrun _ Hin). simpl in Hrun.
assert (Hmem : forall m, In m (keys report) <-> In m (methods args))
  by (intros m; rewrite Hrun; apply first_occurrences_in).
split; [exact Hrun|].
split; [rewrite Hrun; apply first_occurrences_NoDup|].
split; [exact Hmem|].
split.
{ intros m Hm. apply NoDup_count_occ'; [rewrite Hrun; apply first_occurrences_NoDup|].
  now apply Hmem. }
split; [intros Hnd; rewrite Hrun; now apply first_occurrences_id|].
intros m Hm. apply Hmem, dict_get_keys in Hm. destruct Hm as [v Hv].
exists v. split; [exact Hv|]. destruct v; unfold Allowed, Denied, Error; tauto.
Qed.

Lemma audit_loop_returns (args : Namespace) (eps : list string)
  (all_results : dict (dict pyvalue)) (w : world) :
(forall e, In e eps -> exists full_url, urljoin (url args) e = Ok full_url) ->
exists all_results' w',
  for_each (audit_endpoint urljoin transport args) eps all_results w
  = (Ok all_results', w').
Proof.
revert all_results w. induction eps as [|e eps IH]; intros all_results w Hjoin; simpl.
- unfold ret. eauto.
- unfold bind. rewrite audit_endpoint_run.
  destruct (Hjoin e (or_introl eq_refl)) as [full_url ->]. cbv zeta.
  apply IH. intros e' He'. apply Hjoin. now right.
Qed.

(** C10: a report is empty exactly when the method list is empty, and the
  loop over the endpoints treats an empty report like no report at all:
  the endpoint gets no entry and the failure record is logged, because the
  test is the truth value of the returned object. *)
Theorem empty_report_is_omitted_like_a_failed_probe
  (args : Namespace) (all_results : dict (dict pyvalue)) (endpoint : string)
  (w : world) :
(forall report,
    fst (test_http_methods urljoin transport (url args) endpoint (methods args)
           (user_agent args) (timeout args) (ignore_ssl args) w) = Ok (Some report) ->
    (report = [] <-> methods args = []))
/\ truthy (@None (dict pyvalue)) = false
/\ truthy (Some (@nil (string * pyvalue))) = false
/\ (forall item items, truthy (Some (item :: items : dict pyvalue)) = true)
/\ collect all_results endpoint (Some []) w = collect all_results endpoint None w
/\ collect all_results endpoint (Some []) w
   = (Ok all_results,
      mkWorld (sent w) (logged w ++ [(ERROR, FailedToTest endpoint)])
        (printed w) (written w))
/\ (forall item items,
      collect all_results endpoint (Some (item :: items)) w
      = (Ok (dict_set all_results endpoint (item :: items)), w))
/\ (methods args = [] ->
    forall full_url, urljoin (url args) endpoint = Ok full_url ->
    audit_endpoint urljoin transport args all_results endpoint w
    = (Ok all_results,
       mkWorld (sent w)
         (logged w ++ [(INFO, AuditingEndpoint endpoint); (ERROR, FailedToTest endpoint)])
         (printed w) (written w))).
Proof.
split.
{ intros report. rewrite test_http_methods_run.
  destruct (urljoin (url args) endpoint); [|discriminate].
  cbn [fst]. intros [= <-]. apply probe_fold_empty. }
repeat split.
intros Hm full_url Hjoin. rewrite audit_endpoint_run, Hjoin, Hm.
cbn. now rewrite app_nil_r.
Qed.

(** Apart from a join that raises, the loop over the endpoints behaves as
  specified: with a non-empty method list, every configured endpoint is
  probed once, in order, and gets an entry. *)
Lemma audit_loop_run (args : Namespace) (eps urls : list string)
  (all_results : dict (dict pyvalue)) (w : world) :
Forall2 (fun e full_url => urljoin (url args) e = Ok full_url) eps urls ->
methods args <> [] ->
exists all_results' w',
  for_each (audit_endpoint urljoin transport args) eps all_results w
  = (Ok all_results', w')
  /\ keys all_results' = fold_left add_key eps (keys all_results)
  /\ sent w'
     = (sent w
        ++ flat_map (fun full_url =>
                       map (request_for full_url (user_agent args) (timeout args)
                              (ignore_ssl args)) (methods args)) urls)%list.
Proof.
intros Hjoin Hm. revert all_results w.
induction Hjoin as [|e full_url eps urls He _ IH]; intros all_results w; simpl.
- unfold ret. exists all_results, w. now rewrite app_nil_r.
- unfold bind. rewrite audit_endpoint_run, He. cbv zeta.
  destruct (methods args) as [|m ms] eqn:Em; [contradiction|].
  match goal with
  | |- context [for_each _ eps ?a ?w1] => destruct (IH a w1) as [all' [w' [Hrun [Hk Hs]]]]
  end.
  exists all', w'. split; [exact Hrun|]. split.
  + rewrite Hk. now rewrite keys_dict_set.
  + rewrite Hs. cbn [sent]. now rewrite <- app_assoc.
Qed.

(** *** Emitting the report *)

Variable writable : string -> bool.

Lemma save_results_to_file_run (results : dict (dict pyvalue)) (filename : string)
  (w : world) :
save_results_to_file writable results filename w
= if writable filename
  then (Ok tt,
        mkWorld (sent w) (logged w ++ [(INFO, ResultsSavedTo filename)]) (printed w)
          (written w ++ [(filename, json_dumps results)]))
  else (Ok tt,
        mkWorld (sent w) (logged w ++ [(ERROR, ErrorSavingResults filename)])
          (printed w) (written w)).
Proof.
unfold save_results_to_file, try_except, bind, open_and_dump, logging.
destruct (writable filename); reflexivity.
Qed.

Lemma emit_returns (args : Namespace) (all_results : dict (dict pyvalue)) (w : world) :
fst (emit writable args all_results w) = Ok tt
/\ sent (snd (emit writable args all_results w)) = sent w.
Proof.
unfold emit. destruct (output args) as [[|c f]|]; try (split; reflexivity).
rewrite save_results_to_file_run. destruct (writable _); split; reflexivity.
Qed.

Lemma main_parsed (args : Namespace) (w : world) :
main urljoin transport writable (Parsed args) w
= match audit urljoin transport args w with
  | (Ok all_results, w1) =>
      (Ok tt,
       mkWorld (sent (snd (emit writable args all_results w1)))
         (logged (snd (emit writable args all_results w1)) ++ [(INFO, AuditCompleted)])
         (printed (snd (emit writable args all_results w1)))
         (written (snd (emit writable args all_results w1))))
  | (Raise e, w1) => (Raise e, w1)
  end.
Proof.
unfold main, bind, setup_argparse, ret.
destruct (audit urljoin transport args w) as [[all_results|e] w1]; [|reflexivity].
pose proof (emit_returns args all_results w1) as [He _].
destruct (emit writable args all_results w1) as [[[]|e] w2]; [reflexivity|discriminate].
Qed.



End MainFacts.

(** ** The result sink *)

Lemma append_assoc (a b c : string) : (a ++ b) ++ c = a ++ b ++ c.
Proof. induction a as [|x a IH]; simpl; [reflexivity | now rewrite IH]. Qed.

Lemma json_items_concat {V : Type} (enc : V -> string) (ind : nat) (d : dict V) :
  json_items enc ind d
  = String.concat ","
      (map (fun kv => newline ++ spaces ind ++ json_string (fst kv) ++ ": " ++ enc (snd kv)) d).
Proof.
  induction d as [|[k v] d IH]; [reflexivity|].
  destruct d as [|kv d]; [reflexivity|].
  change (json_items enc ind ((k, v) :: kv :: d))
    with (newline ++ spaces ind ++ json_string k ++ ": " ++ enc v ++ ","
          ++ json_items enc ind (kv :: d)).
  rewrite IH. cbn [map String.concat fst snd].
  now rewrite !append_assoc.
Qed.

Lemma escape_app (a b : string) : escape (a ++ b) = escape a ++ escape b.
Proof.
  induction a as [|c a IH]; simpl; [reflexivity|].
  now rewrite IH, append_assoc.
Qed.

Section SinkFacts.

Variable urljoin : string -> string -> result string.
Variable transport : nat -> request -> outcome.
Variable writable : string -> bool.

Local Abbreviation LF := (String (ascii_of_nat 10) EmptyString).
Local Abbreviation QUOTE := (String (ascii_of_nat 34) EmptyString).
Local Abbreviation BACKSLASH := (String (ascii_of_nat 92) EmptyString).

(** C6, amended: the JSON text of a report is [{}] for an empty report and
    otherwise an object with one line per endpoint, indented by four spaces,
    whose value is an object with one line per method, indented by eight
    spaces and closed on a line indented by four; the lines are separated by
    commas, the keys stand between double quotes, and a key is escaped
    character by character: printable ASCII as it is, the double quote and
    the backslash behind a backslash, the usual short forms for backspace,
    tab, line feed, form feed and carriage return, and [\u00] with two
    hexadecimal digits for the rest.  [Error] appears as [null], [Allowed]
    as [true] and [Denied] as [false].  With a non-empty output path that
    text is written to the file when the file can be written, and when it
    cannot, the failure is logged and the text goes nowhere; without an
    output path the same text is printed. *)
Theorem emitted_output_is_indented_json
    (args : Namespace) (all_results : dict (dict pyvalue)) (w : world) :
  (json_value Error = "null" /\ json_value Allowed = "true" /\ json_value Denied = "false")
  /\ ((forall a b, escape (a ++ b) = escape a ++ escape b)
      /\ (forall c,
            (32 <=? nat_of_ascii c)%nat && (nat_of_ascii c <=? 126)%nat
            && negb (nat_of_ascii c =? 34)%nat && negb (nat_of_ascii c =? 92)%nat = true ->
            escape (String c "") = String c "")
      /\ escape QUOTE = BACKSLASH ++ QUOTE
      /\ escape BACKSLASH = BACKSLASH ++ BACKSLASH
      /\ escape (String (ascii_of_nat 8) "") = BACKSLASH ++ "b"
      /\ escape (String (ascii_of_nat 9) "") = BACKSLASH ++ "t"
      /\ escape LF = BACKSLASH ++ "n"
      /\ escape (String (ascii_of_nat 12) "") = BACKSLASH ++ "f"
      /\ escape (String (ascii_of_nat 13) "") = BACKSLASH ++ "r"
      /\ (forall c,
            negb ((32 <=? nat_of_ascii c)%nat && (nat_of_ascii c <=? 126)%nat)
            && negb (nat_of_ascii c =? 8)%nat && negb (nat_of_ascii c =? 9)%nat
            && negb (nat_of_ascii c =? 10)%nat && negb (nat_of_ascii c =? 12)%nat
            && negb (nat_of_ascii c =? 13)%nat = true ->
            escape (String c "")
            = BACKSLASH ++ "u00"
              ++ String (nth (nat_of_ascii c / 16)
                           (list_ascii_of_string "0123456789abcdef") "0"%char)
                   (String (nth (nat_of_ascii c mod 16)
                              (list_ascii_of_string "0123456789abcdef") "0"%char) "")))
  /\ json_dumps all_results
     = match all_results with
       | [] => "{}"
       | _ :: _ =>
           "{"
           ++ String.concat ","
                (map (fun er =>
                        LF ++ "    " ++ QUOTE ++ escape (fst er) ++ QUOTE ++ ": "
                        ++ match snd er with
                           | [] => "{}"
                           | _ :: _ =>
                               "{"
                               ++ String.concat ","
                                    (map (fun mv =>
                                            LF ++ "        " ++ QUOTE ++ escape (fst mv)
                                            ++ QUOTE ++ ": " ++ json_value (snd mv))
                                       (snd er))
                               ++ LF ++ "    " ++ "}"
                           end)
                   all_results)
           ++ LF ++ "}"
       end
  /\ json_dumps [("/admin", [("GET", Allowed); ("PUT", Denied); ("TRACE", Error)])]
     = "{" ++ LF
       ++ "    " ++ QUOTE ++ "/admin" ++ QUOTE ++ ": {" ++ LF
       ++ "        " ++ QUOTE ++ "GET" ++ QUOTE ++ ": true," ++ LF
       ++ "        " ++ QUOTE ++ "PUT" ++ QUOTE ++ ": false," ++ LF
       ++ "        " ++ QUOTE ++ "TRACE" ++ QUOTE ++ ": null" ++ LF
       ++ "    }" ++ LF
       ++ "}"
  /\ emit writable args all_results w
     = match output args with
       | Some (String c f) =>
           if writable (String c f)
           then (Ok tt,
                 mkWorld (sent w) (logged w ++ [(INFO, ResultsSavedTo (String c f))])
                   (printed w) (written w ++ [(String c f, json_dumps all_results)]))
           else (Ok tt,
                 mkWorld (sent w) (logged w ++ [(ERROR, ErrorSavingResults (String c f))])
                   (printed w) (written w))
       | _ =>
           (Ok tt,
            mkWorld (sent w) (logged w) (printed w ++ [json_dumps all_results]) (written w))
       end
  /\ main urljoin transport writable (Parsed args) w
     = match audit urljoin transport args w with
       | (Ok report, w1) =>
           (Ok tt,
            mkWorld (sent (snd (emit writable args report w1)))
              (logged (snd (emit writable args report w1)) ++ [(INFO, AuditCompleted)])
              (printed (snd (emit writable args report w1)))
              (written (snd (emit writable args report w1))))
       | (Raise e, w1) => (Raise e, w1)
       end.
Proof.
  split; [repeat split|].
  split.
  { split; [exact escape_app|].
    split.
    { intros [[] [] [] [] [] [] [] []]; vm_compute; intros H;
        first [reflexivity | discriminate H]. }
    do 7 (split; [reflexivity|]).
    intros [[] [] [] [] [] [] [] []]; vm_compute; intros H;
      first [reflexivity | discriminate H]. }
  split; [|split; [reflexivity|split]].
  - unfold json_dumps, json_dict. destruct all_results as [|er rest]; [reflexivity|].
    rewrite json_items_concat.
    erewrite map_ext; [reflexivity|].
    intros [e r]. cbn [fst snd]. unfold json_string.
    change newline with LF. change quote with QUOTE.
    change (spaces (4 * 1)) with "    ".
    rewrite !append_assoc. do 5 f_equal.
    destruct r as [|mv r]; [reflexivity|]. rewrite json_items_concat.
    change (spaces (4 * 2)) with "        ".
    erewrite map_ext; [reflexivity|].
    intros [m v]. cbn [fst snd]. unfold json_string.
    change newline with LF. change quote with QUOTE.
    now rewrite !append_assoc.
  - unfold emit. destruct (output args) as [[|c f]|]; try reflexivity.
    apply save_results_to_file_run.
  - apply main_parsed.
Qed.

End SinkFacts.

(** ** The URL join *)

Module UrllibFacts.
Import Urllib.

Lemma append_empty_r (s : string) : s ++ "" = s.
Proof. induction s as [|c s IH]; simpl; [reflexivity | now rewrite IH]. Qed.

Lemma prefix_slash_inv (s : string) :
startswith s "/" = true -> exists s', s = String "/" s'.
Proof.
destruct s as [|c s]; [discriminate|]. cbn [startswith].
destruct (Ascii.eqb_spec "/" c) as [<-|]; [eauto | discriminate].
Qed.

Lemma prefix_slash_app (s t : string) :
startswith s "/" = true -> startswith (s ++ t) "/" = true.
Proof.
intros H. destruct (prefix_slash_inv s H) as [s' ->]. reflexivity.
Qed.

Lemma slash_prefix (s : string) : startswith (String "/" s) "/" = true.
Proof. reflexivity. Qed.

(** Cutting at the first occurrence of a character other than [/] keeps a
  leading [/]. *)
Lemma split_once_slash (c : ascii) (s : string) :
Ascii.eqb c "/" = false ->
exists s', fst (split_once c (String "/" s)) = String "/" s'.
Proof.
intros Hc. unfold split_once, is_char. simpl. rewrite Hc.
destruct (find (Ascii.eqb c) s) as [i|]; simpl; eauto.
Qed.

Lemma split_fragment_query_slash (s : string) :
exists p qry frag, split_fragment_query (String "/" s) = (String "/" p, qry, frag).
Proof.
unfold split_fragment_query.
assert (H1 : exists s1 frag,
           (if contains "#" (String "/" s) then split_once "#" (String "/" s)
            else (String "/" s, "")) = (String "/" s1, frag)).
{ destruct (contains "#" (String "/" s)); [|eauto].
  destruct (split_once_slash "#" s eq_refl) as [s1 H].
  destruct (split_once "#" (String "/" s)) as [a b]. simpl in H. subst a. eauto. }
destruct H1 as [s1 [frag ->]].
destruct (contains "?" (String "/" s1)); [|eauto].
destruct (split_once_slash "?" s1 eq_refl) as [s2 H].
destruct (split_once "?" (String "/" s1)) as [a b]. simpl in H. subst a. eauto.
Qed.

Lemma splitparams_slash (s : string) :
exists p prm, splitparams (String "/" s) = (String "/" p, prm).
Proof.
unfold splitparams. cbn [contains]. change (Ascii.eqb "/" "/") with true. cbn [orb].
destruct (rfind (is_char "/") (String "/" s)) as [r|]; [|eauto].
unfold find_from.
destruct r as [|r].
- cbn [drop find is_char]. change (Ascii.eqb ";" "/") with false. cbv iota.
  destruct (find (is_char ";") s) as [k|]; simpl; eauto.
- destruct (find (is_char ";") (drop (S r) (String "/" s))) as [k|]; simpl; eauto.
Qed.

(** A reference that starts with a single [/] has no scheme and no netloc of
  its own, and its path starts with [/]. *)
Lemma urlparse_absolute_path (endpoint : string) :
startswith endpoint "/" = true ->
startswith (remove unsafe_byte endpoint) "//" = false ->
exists p prm qry frag,
  forall chk sch, sch = "http" \/ sch = "https" ->
    urlparse chk endpoint sch = Ok (mkParse sch "" (String "/" p) prm qry frag).
Proof.
intros H1 H2. destruct (prefix_slash_inv endpoint H1) as [e ->].
change (remove unsafe_byte (String "/" e)) with (String "/" (remove unsafe_byte e)) in H2.
destruct (split_fragment_query_slash (remove unsafe_byte e)) as [p0 [qry [frag Hfq]]].
assert (Hp : exists p prm,
           (if contains ";" (String "/" p0) then splitparams (String "/" p0)
            else (String "/" p0, "")) = (String "/" p, prm)).
{ destruct (contains ";" (String "/" p0)); [apply splitparams_slash | eauto]. }
destruct Hp as [p [prm Hp]].
exists p, prm, qry, frag. intros chk sch Hsch.
unfold urlparse, urlsplit.
change (lstrip c0_control_or_space (String "/" e)) with (String "/" e).
change (remove unsafe_byte (String "/" e)) with (String "/" (remove unsafe_byte e)).
assert (Hs : split_scheme (remove unsafe_byte (strip c0_control_or_space sch))
               (String "/" (remove unsafe_byte e))
             = (sch, String "/" (remove unsafe_byte e))).
{ unfold split_scheme.
  replace (remove unsafe_byte (strip c0_control_or_space sch)) with sch
    by (destruct Hsch as [-> | ->]; reflexivity).
  destruct (find (is_char ":") (String "/" (remove unsafe_byte e))) as [[|i]|];
    reflexivity. }
rewrite Hs, H2, Hfq. cbn [s_scheme s_path s_netloc s_query s_fragment].
replace (mem sch uses_params) with true by (destruct Hsch as [-> | ->]; reflexivity).
cbn [andb]. now rewrite Hp.
Qed.

Lemma resolve_path_nonempty (bpath rpath : string) :
nonempty (resolve_path bpath rpath) = true.
Proof.
unfold resolve_path. cbv zeta.
match goal with |- context [nonempty (join "/" ?l)] => destruct (nonempty (join "/" l)) eqn:E end;
  [exact E | reflexivity].
Qed.

Lemma resolve_path_absolute (bpath rpath : string) :
startswith rpath "/" = true -> resolve_path bpath rpath = resolve_path "" rpath.
Proof. intros H. unfold resolve_path. now rewrite H. Qed.

Lemma nonempty_app (s t : string) : nonempty s = true -> nonempty (s ++ t) = true.
Proof. destruct s; [discriminate | reflexivity]. Qed.

Lemma reference_tail_slash (pth prm qry frag : string) :
nonempty pth = true -> startswith (reference_tail pth prm qry frag) "/" = true.
Proof.
intros Hp. unfold reference_tail. apply prefix_slash_app.
match goal with |- context [nonempty ?u && _] => assert (Hu : nonempty u = true) end.
{ destruct (nonempty prm); [now apply nonempty_app | exact Hp]. }
rewrite Hu. cbn [andb].
match goal with |- context [negb (startswith ?u "/")] =>
  destruct (startswith u "/") eqn:E end; cbn [negb]; [exact E | apply slash_prefix].
Qed.

(** Putting a URL with a scheme and a host back together. *)
Lemma urlunparse_with_netloc (sch nl pth prm qry frag : string) :
nonempty sch = true -> nonempty nl = true ->
urlunparse (mkParse sch nl pth prm qry frag)
= sch ++ "://" ++ nl ++ reference_tail pth prm qry frag.
Proof.
intros Hs Hn. unfold urlunparse, urlunsplit, reference_tail.
cbn [scheme netloc path params query fragment
     s_scheme s_netloc s_path s_query s_fragment].
rewrite Hs, Hn. cbn [orb].
destruct (nonempty qry), (nonempty frag);
  rewrite ?append_empty_r, ?append_assoc; cbn [append]; rewrite ?append_assoc;
  reflexivity.
Qed.

(** Joining an absolute-path reference to an http(s) base with a host. *)
Lemma urljoin_absolute_path (endpoint : string) :
startswith endpoint "/" = true ->
startswith (remove unsafe_byte endpoint) "//" = false ->
exists tail,
  startswith tail "/" = true
  /\ forall chk base b,
       base <> "" ->
       urlparse chk base "" = Ok b ->
       scheme b = "http" \/ scheme b = "https" ->
       netloc b <> "" ->
       urljoin chk base endpoint = Ok (scheme b ++ "://" ++ netloc b ++ tail).
Proof.
intros H1 H2.
destruct (urlparse_absolute_path endpoint H1 H2) as [p [prm [qry [frag Hparse]]]].
exists (reference_tail (resolve_path "" (String "/" p)) prm qry frag).
split; [apply reference_tail_slash, resolve_path_nonempty|].
intros chk base b Hbase Hb Hsch Hnl. unfold urljoin.
destruct base as [|c base]; [contradiction|]. cbn [nonempty negb].
destruct (prefix_slash_inv endpoint H1) as [e He]. rewrite He at 1. cbn [nonempty negb].
rewrite Hb, (Hparse chk _ Hsch). cbn [scheme netloc path params query fragment].
rewrite String.eqb_refl. cbn [negb orb].
replace (mem (scheme b) uses_relative) with true
  by (destruct Hsch as [-> | ->]; reflexivity).
replace (mem (scheme b) uses_netloc) with true
  by (destruct Hsch as [-> | ->]; reflexivity).
cbn [negb orb andb nonempty].
rewrite (resolve_path_absolute (path b)) by apply slash_prefix.
f_equal. apply urlunparse_with_netloc.
- destruct Hsch as [-> | ->]; reflexivity.
- destruct (netloc b); [contradiction | reflexivity].
Qed.

End UrllibFacts.

(** C7, amended: every request of an endpoint goes to the one URL that the
    join of the base URL and the endpoint returned (and when the join raises,
    no request is sent).  For an endpoint that starts with [/] but, tab, CR
    and LF characters aside, not with [//], joined to a base with the scheme
    [http] or [https] and a non-empty host, that URL is the scheme and host
    of the base followed by a text that starts with [/] and depends on the
    endpoint alone: the path, query and fragment of the base are dropped. *)
Theorem request_url_is_the_joined_url
    (urljoin : string -> string -> result string) (transport : nat -> request -> outcome)
    (base endpoint : string) (meths : list string) (ua : string) (tmo : Z)
    (ignore : bool) (w : world) :
  match urljoin base endpoint with
  | Ok full_url =>
      sent (snd (test_http_methods urljoin transport base endpoint meths ua tmo ignore w))
      = (sent w ++ map (fun m => mkRequest m full_url ua tmo (negb ignore)) meths)%list
  | Raise _ =>
      sent (snd (test_http_methods urljoin transport base endpoint meths ua tmo ignore w))
      = sent w
  end
  /\ (startswith endpoint "/" = true ->
      startswith (Urllib.remove Urllib.unsafe_byte endpoint) "//" = false ->
      exists tail,
        startswith tail "/" = true
        /\ forall chk base' b,
             base' <> "" ->
             Urllib.urlparse chk base' "" = Ok b ->
             Urllib.scheme b = "http" \/ Urllib.scheme b = "https" ->
             Urllib.netloc b <> "" ->
             Urllib.urljoin chk base' endpoint
             = Ok (Urllib.scheme b ++ "://" ++ Urllib.netloc b ++ tail)).
Proof.
  split.
  - rewrite test_http_methods_run. destruct (urljoin base endpoint); reflexivity.
  - apply UrllibFacts.urljoin_absolute_path.
Qed.

(** The join at work on the sample base: [/admin] replaces the path and
    keeps scheme and host. *)
Lemma request_url_is_the_joined_url_witness :
  sent (snd (test_http_methods py_urljoin stub_transport "https://example.com/app/v1?x=1"
               "/admin" ["GET"; "PUT"] "VulnHTTPMethodAuditor/1.0" 10 false initial_world))
  = [mkRequest "GET" "https://example.com/admin" "VulnHTTPMethodAuditor/1.0" 10 true;
     mkRequest "PUT" "https://example.com/admin" "VulnHTTPMethodAuditor/1.0" 10 true]
  /\ exists tail,
       startswith tail "/" = true
       /\ py_urljoin "https://example.com/app/v1?x=1" "/admin"
          = Ok ("https" ++ "://" ++ "example.com" ++ tail).
Proof.
  destruct (request_url_is_the_joined_url py_urljoin stub_transport
              "https://example.com/app/v1?x=1" "/admin" ["GET"; "PUT"]
              "VulnHTTPMethodAuditor/1.0" 10 false initial_world) as [Hsent Hjoin].
  split; [exact Hsent|].
  destruct (Hjoin eq_refl eq_refl) as [tail [Htail Hall]].
  exists tail. split; [exact Htail|].
  apply (Hall lenient "https://example.com/app/v1?x=1"
           (Urllib.mkParse "https" "example.com" "/app/v1" "" "x=1" ""));
    [discriminate | reflexivity | now right | discriminate].
Defined.

(** C7 as stated fails: the endpoint [//evil.example/x] has a leading [/],
    yet its request goes to the host [evil.example], not to the host
    [example.com] of the base URL. *)
Lemma double_slash_endpoint_changes_the_host :
  startswith "//evil.example/x" "/" = true
  /\ sent (snd (test_http_methods py_urljoin stub_transport "https://example.com/app"
                  "//evil.example/x" ["GET"] "VulnHTTPMethodAuditor/1.0" 10 false
                  initial_world))
     = [mkRequest "GET" "https://evil.example/x" "VulnHTTPMethodAuditor/1.0" 10 true]
  /\ Urllib.urlparse lenient "https://example.com/app" ""
     = Ok (Urllib.mkParse "https" "example.com" "/app" "" "" "")
  /\ Urllib.urlparse lenient "https://evil.example/x" ""
     = Ok (Urllib.mkParse "https" "evil.example" "/x" "" "" "")
  /\ "evil.example" <> "example.com".
Proof. repeat split; try reflexivity. discriminate. Qed.

(** C4 at its failing input: the URL is well-formed and two endpoints are
    given, but the join of the first one, [//[], raises [ValueError] before
    the [try] statement of the prober.  The exception ends the run with
    status 1: no request is sent, [/admin] is never audited, nothing is
    printed or written, and no failure record is logged. *)
Theorem unjoinable_endpoint_aborts_the_run :
  py_urljoin "https://example.com" "//[" = Raise ValueError
  /\ py_urljoin "https://example.com" "/admin" = Ok "https://example.com/admin"
  /\ main py_urljoin stub_transport read_write (Parsed unjoinable_args) initial_world
     = (Raise ValueError, mkWorld [] [(INFO, AuditingEndpoint "//[")] [] [])
  /\ exit_status
       (fst (main py_urljoin stub_transport read_write (Parsed unjoinable_args)
               initial_world)) = 1.
Proof. repeat split. Qed.


(** ** Concrete runs *)

(** [PUT] is answered with 403 and is stored as [Denied]. *)
Lemma status_code_decides_result_witness :
  exists report,
    fst (test_http_methods py_urljoin stub_transport "https://example.com" "/admin"
           ["GET"; "PUT"] "VulnHTTPMethodAuditor/1.0" 10 false initial_world)
    = Ok (Some report)
    /\ dict_get report "PUT" = Some Denied.
Proof.
  destruct (status_code_decides_result py_urljoin stub_transport
              "https://example.com" "/admin" "https://example.com/admin"
              ["GET"] "PUT" [] "VulnHTTPMethodAuditor/1.0" 10 false initial_world 403
              eq_refl eq_refl) as [recorded [Hin [_ [_ Hfinal]]]].
  destruct (Hin ltac:(lia)) as [-> _].
  exact (Hfinal (fun H => H)).
Defined.

(** [TRACE] fails, is stored as [Error], and [PUT] after it is still probed. *)
Lemma transport_fault_records_error_and_continues_witness :
  exists report,
    fst (test_http_methods py_urljoin stub_transport "https://example.com" "/admin"
           ["GET"; "TRACE"; "PUT"] "VulnHTTPMethodAuditor/1.0" 10 false initial_world)
    = Ok (Some report)
    /\ dict_get report "TRACE" = Some Error
    /\ dict_get report "PUT" = Some Denied.
Proof.
  destruct (transport_fault_records_error_and_continues py_urljoin stub_transport
              "https://example.com" "/admin" "https://example.com/admin"
              ["GET"] "TRACE" ["PUT"] "VulnHTTPMethodAuditor/1.0" 10 false initial_world
              eq_refl (or_introl eq_refl))
    as [_ [_ [report [Hrun [_ [Herr Hsib]]]]]].
  exists report. split; [exact Hrun|]. split.
  - apply Herr. simpl. intros [H|[]]. discriminate H.
  - exact (Hsib ["GET"; "TRACE"] "PUT" [] eq_refl (fun H => H)).
Defined.

(** The report of the sample run has the keys [GET] and [PUT]. *)
Lemma report_has_the_configured_methods_as_keys_witness :
  keys [("GET", Allowed); ("PUT", Denied)] = ["GET"; "PUT"].
Proof.
  destruct (report_has_the_configured_methods_as_keys py_urljoin stub_transport
              sample_args initial_world
              (snd (audit py_urljoin stub_transport sample_args initial_world))
              [("/admin", [("GET", Allowed); ("PUT", Denied)])]
              "/admin" [("GET", Allowed); ("PUT", Denied)] eq_refl eq_refl)
    as [_ [_ [_ [_ [Hsame _]]]]].
  apply Hsame. repeat constructor; simpl; intuition discriminate.
Defined.


(** C6 as stated fails: an output path is configured, but the file cannot
    be written; the run completes with a non-empty report, whose JSON text
    is neither written to the file nor printed. *)
Lemma unwritable_output_file_loses_the_report :
  output stored_args = Some "report.json"
  /\ fst (audit py_urljoin stub_transport stored_args initial_world)
     = Ok [("/admin", [("GET", Allowed); ("PUT", Denied)])]
  /\ fst (main py_urljoin stub_transport read_only (Parsed stored_args) initial_world)
     = Ok tt
  /\ written (snd (main py_urljoin stub_transport read_only (Parsed stored_args)
                     initial_world)) = []
  /\ printed (snd (main py_urljoin stub_transport read_only (Parsed stored_args)
                     initial_world)) = []
  /\ In (ERROR, ErrorSavingResults "report.json")
       (logged (snd (main py_urljoin stub_transport read_only (Parsed stored_args)
                       initial_world))).
Proof. repeat split. vm_compute. right. left. reflexivity. Qed.

(** C8 as stated fails: no request of this probe fails, for none is made,
    yet [test_http_methods] returns no report: the join of [//[] raises
    [ValueError], which leaves the function. *)
Lemma unjoinable_endpoint_returns_no_report :
  test_http_methods py_urljoin stub_transport "https://example.com" "//[" HTTP_METHODS
    "VulnHTTPMethodAuditor/1.0" 10 false initial_world
  = (Raise ValueError, initial_world)
  /\ sent (snd (test_http_methods py_urljoin stub_transport "https://example.com" "//["
                  HTTP_METHODS "VulnHTTPMethodAuditor/1.0" 10 false initial_world))
     = []
  /\ forall report,
       fst (test_http_methods py_urljoin stub_transport "https://example.com" "//["
              HTTP_METHODS "VulnHTTPMethodAuditor/1.0" 10 false initial_world)
       <> Ok (Some report).
Proof. repeat split. intros report H. discriminate H. Qed.

(** On [/admin] every request of the default list is answered or fails on
    its own, and a report is returned. *)
Lemma outer_failure_branch_unreachable_witness :
  exists report,
    fst (test_http_methods py_urljoin stub_transport "https://example.com" "/admin"
           HTTP_METHODS "VulnHTTPMethodAuditor/1.0" 10 false initial_world)
    = Ok (Some report).
Proof.
  destruct (outer_failure_branch_unreachable py_urljoin stub_transport
              "https://example.com" "/admin" "https://example.com/admin" HTTP_METHODS
              "VulnHTTPMethodAuditor/1.0" 10 false initial_world eq_refl)
    as [[report [Hrun _]] _].
  exists report. exact Hrun.
Defined.

(** [GET] is probed twice; the second answer, 503, is the one kept. *)
Lemma repeated_method_keeps_last_result_witness :
  exists report,
    fst (test_http_methods py_urljoin stub_transport "https://example.com" "/admin"
           ["GET"; "GET"] "VulnHTTPMethodAuditor/1.0" 10 false initial_world)
    = Ok (Some report)
    /\ length (sent (snd (test_http_methods py_urljoin stub_transport
                            "https://example.com" "/admin" ["GET"; "GET"]
                            "VulnHTTPMethodAuditor/1.0" 10 false initial_world))) = 2%nat
    /\ count_occ string_dec (keys report) "GET" = 1%nat
    /\ dict_get report "GET" = Some Denied.
Proof.
  destruct (repeated_method_keeps_last_result py_urljoin stub_transport
              "https://example.com" "/admin" "https://example.com/admin"
              ["GET"; "GET"] "VulnHTTPMethodAuditor/1.0" 10 false initial_world eq_refl)
    as [report [Hrun [Hsent [Hone Hlast]]]].
  exists report. split; [exact Hrun|]. split; [now rewrite Hsent|].
  split; [apply Hone; now left|].
  exact (Hlast ["GET"] "GET" [] eq_refl (fun H => H)).
Defined.

(** * Further properties of the script *)

(** ** What the prober logs *)

Section ProbeLogFacts.

Variable transport : nat -> request -> outcome.
Variables (full_url ua : string) (tmo : Z) (ignore : bool).

Lemma probe_log_app (n : nat) (a b : list string) :
  probe_log transport full_url ua tmo ignore n (a ++ b)
  = (probe_log transport full_url ua tmo ignore n a
     ++ probe_log transport full_url ua tmo ignore (n + length a) b)%list.
Proof.
  revert n. induction a as [|m a IH]; intros n; simpl.
  - now rewrite Nat.add_0_r.
  - rewrite IH, <- app_assoc. do 3 f_equal. lia.
Qed.

Lemma probe_log_length (n : nat) (meths : list string) :
  length (probe_log transport full_url ua tmo ignore n meths)
  = failures transport full_url ua tmo ignore n meths.
Proof.
  revert n. induction meths as [|m meths IH]; intros n; simpl; [reflexivity|].
  rewrite length_app, IH. f_equal.
  now destruct (transport n (request_for full_url ua tmo ignore m)).
Qed.

Lemma probe_log_records (n : nat) (meths : list string) (record : level * message) :
  In record (probe_log transport full_url ua tmo ignore n meths) ->
  exists m,
    In m meths
    /\ (record = (ERROR, ErrorTesting m full_url)
        \/ record = (ERROR, UnexpectedErrorTesting m full_url)).
Proof.
  revert n. induction meths as [|m meths IH]; intros n; simpl; [tauto|].
  intros H. apply in_app_or in H. destruct H as [H|H].
  - exists m. split; [now left|].
    destruct (transport n (request_for full_url ua tmo ignore m)); simpl in H;
      [tauto | |]; destruct H as [<-|[]]; auto.
  - destruct (IH _ H) as [m' [Hm' Hr]]. exists m'. split; [now right | exact Hr].
Qed.

End ProbeLogFacts.

Section ProberLogClaims.

Variable urljoin : string -> string -> result string.
Variable transport : nat -> request -> outcome.

(** X1: the prober logs one ERROR record per failed request and nothing
    else: the records it adds are as many as the requests that raised, each
    names a method of the list and the joined URL, the record of every
    failed request is among them, and a probe in which every request is
    answered logs nothing.  It never prints and never writes a file. *)
Theorem prober_logs_exactly_the_failed_requests
    (base endpoint full_url : string) (meths : list string) (ua : string) (tmo : Z)
    (ignore : bool) (w : world) :
  urljoin base endpoint = Ok full_url ->
  exists records,
    logged (snd (test_http_methods urljoin transport base endpoint meths ua tmo ignore w))
    = (logged w ++ records)%list
    /\ length records = failures transport full_url ua tmo ignore (length (sent w)) meths
    /\ (forall record, In record records ->
          exists m, In m meths
                    /\ (record = (ERROR, ErrorTesting m full_url)
                        \/ record = (ERROR, UnexpectedErrorTesting m full_url)))
    /\ (forall pre m post,
          meths = (pre ++ m :: post)%list ->
          (transport (length (sent w) + length pre) (request_for full_url ua tmo ignore m)
           = RaisesRequestException ->
           In (ERROR, ErrorTesting m full_url) records)
          /\ (transport (length (sent w) + length pre)
                (request_for full_url ua tmo ignore m)
              = RaisesOtherException ->
              In (ERROR, UnexpectedErrorTesting m full_url) records))
    /\ (failures transport full_url ua tmo ignore (length (sent w)) meths = 0%nat ->
        records = [])
    /\ printed (snd (test_http_methods urljoin transport base endpoint meths ua tmo
                       ignore w)) = printed w
    /\ written (snd (test_http_methods urljoin transport base endpoint meths ua tmo
                       ignore w)) = written w.
Proof.
  intros Hjoin. rewrite test_http_methods_run, Hjoin. cbn [snd logged printed written].
  eexists. split; [reflexivity|].
  split; [apply probe_log_length|].
  split; [intros record; apply probe_log_records|].
  split.
  - intros pre m post ->. rewrite probe_log_app. cbn [probe_log].
    split; intros H; apply in_or_app; right; apply in_or_app; left;
      rewrite H; now left.
  - split; [|split; reflexivity].
    intros H. rewrite <- probe_log_length in H.
    now apply length_zero_iff_nil.
Qed.

End ProberLogClaims.

(** ** What a run does to the outside *)

Section RunFacts.

Variable urljoin : string -> string -> result string.
Variable transport : nat -> request -> outcome.

Lemma for_each_app {X S : Type} (body : S -> X -> M S) (a b : list X) (s : S) (w : world) :
  for_each body (a ++ b) s w
  = match for_each body a s w with
    | (Ok s', w') => for_each body b s' w'
    | (Raise e, w') => (Raise e, w')
    end.
Proof.
  revert s w. induction a as [|x a IH]; intros s w; simpl; [reflexivity|].
  unfold bind. destruct (body s x w) as [[s'|e] w']; [apply IH | reflexivity].
Qed.

(** The loop over the endpoints sends configured requests only, and neither
    prints nor writes. *)
Lemma audit_loop_frame (args : Namespace) (eps0 eps : list string)
    (all_results : dict (dict pyvalue)) (w : world) :
  endpoints args = Some eps0 ->
  incl eps eps0 ->
  exists new,
    sent (snd (for_each (audit_endpoint urljoin transport args) eps all_results w))
    = (sent w ++ new)%list
    /\ Forall (configured_request urljoin args) new
    /\ printed (snd (for_each (audit_endpoint urljoin transport args) eps all_results w))
       = printed w
    /\ written (snd (for_each (audit_endpoint urljoin transport args) eps all_results w))
       = written w.
Proof.
  intros Heps0. revert all_results w.
  induction eps as [|e eps IH]; intros all_results w Hincl; simpl.
  - exists []. rewrite app_nil_r. repeat split. constructor.
  - unfold bind. rewrite audit_endpoint_run.
    destruct (urljoin (url args) e) as [full_url|ex] eqn:Ej.
    + cbv beta iota zeta.
      match goal with
      | |- context [for_each _ eps ?a ?w1] =>
          destruct (IH a w1) as [new [Hs [Hf [Hp Hw]]]]
      end.
      { intros x Hx. apply Hincl. now right. }
      cbn [sent printed written] in Hs, Hp, Hw.
      exists (map (request_for full_url (user_agent args) (timeout args)
                     (ignore_ssl args)) (methods args) ++ new)%list.
      rewrite Hs, Hp, Hw, app_assoc. repeat split.
      apply Forall_app. split; [|exact Hf].
      apply Forall_forall. intros r Hr. apply in_map_iff in Hr.
      destruct Hr as [m [<- Hm]]. unfold configured_request, request_for. cbn.
      repeat split; try assumption.
      exists eps0, e. repeat split; [exact Heps0 | apply Hincl; now left | exact Ej].
    + exists []. cbn. rewrite app_nil_r. repeat split. constructor.
Qed.

Variable writable : string -> bool.

Lemma emit_cases (args : Namespace) (all_results : dict (dict pyvalue)) (w : world) :
  emit writable args all_results w
  = match output args with
    | Some (String c f) =>
        if writable (String c f)
        then (Ok tt,
              mkWorld (sent w) (logged w ++ [(INFO, ResultsSavedTo (String c f))])
                (printed w) (written w ++ [(String c f, json_dumps all_results)]))
        else (Ok tt,
              mkWorld (sent w) (logged w ++ [(ERROR, ErrorSavingResults (String c f))])
                (printed w) (written w))
    | _ =>
        (Ok tt,
         mkWorld (sent w) (logged w) (printed w ++ [json_dumps all_results]) (written w))
    end.
Proof.
  unfold emit. destruct (output args) as [[|c f]|]; try reflexivity.
  apply save_results_to_file_run.
Qed.

(** X2: whatever the platform does, every request of a run is a configured
    one: a method of the configured list, sent with the configured user
    agent and timeout, with certificate checking switched off exactly when
    [--ignore-ssl] is given, to the URL the join returned for a configured
    endpoint.  A run that [argparse] ends, or that fails the startup checks,
    sends nothing. *)
Theorem run_sends_configured_requests_only (cmdline : argparse_outcome) (w : world) :
  exists new,
    sent (snd (main urljoin transport writable cmdline w)) = (sent w ++ new)%list
    /\ match cmdline with
       | Parsed args =>
           Forall (configured_request urljoin args) new
           /\ (usage_error args -> new = [])
       | _ => new = []
       end.
Proof.
  destruct cmdline as [| |args];
    try (exists []; cbn; now rewrite app_nil_r).
  rewrite main_parsed, audit_cases. unfold usage_error.
  destruct (negb (startswith (url args) "http://")
            && negb (startswith (url args) "https://")) eqn:Eu.
  - exists []. cbn. rewrite app_nil_r. repeat split. constructor.
  - destruct (endpoints args) as [eps|] eqn:Ee.
    + destruct (audit_loop_frame args eps eps [] w Ee (incl_refl eps))
        as [new [Hs [Hf _]]].
      exists new.
      destruct (for_each (audit_endpoint urljoin transport args) eps [] w)
        as [[all|ex] w1]; cbn [snd sent] in *.
      * rewrite (proj2 (emit_returns writable args all w1)).
        split; [exact Hs|]. split; [exact Hf|].
        intros [[H1 H2]|H]; [|discriminate]. rewrite H1, H2 in Eu. discriminate.
      * split; [exact Hs|]. split; [exact Hf|].
        intros [[H1 H2]|H]; [|discriminate]. rewrite H1, H2 in Eu. discriminate.
    + exists []. cbn. rewrite app_nil_r. repeat split. constructor.
Qed.

(** X3: a run puts out at most one thing.  Either it prints and writes
    nothing (a command line that [argparse] rejects, a run cut short by an
    exception, an output file that cannot be written); or it puts a single
    text on standard output and writes no file, the text being the help text
    of [argparse] for [-h], the message of the failed startup check, or the
    JSON text of the report when no output path is set; or it writes one
    file, the JSON text of the report under the non-empty output path, and
    prints nothing. *)
Theorem run_prints_one_line_or_writes_one_file (cmdline : argparse_outcome) (w : world) :
  (printed (snd (main urljoin transport writable cmdline w)) = printed w
   /\ written (snd (main urljoin transport writable cmdline w)) = written w)
  \/ (exists text,
        printed (snd (main urljoin transport writable cmdline w))
        = (printed w ++ [text])%list
        /\ written (snd (main urljoin transport writable cmdline w)) = written w
        /\ (cmdline = ArgparseHelp text
            \/ exists args,
                 cmdline = Parsed args
                 /\ ((text = "Error: URL must start with http:// or https://"
                      /\ startswith (url args) "http://" = false
                      /\ startswith (url args) "https://" = false)
                     \/ (text = "Error: No endpoints specified, this tool requires you to explicitly list the endpoints. Example: -e /admin /api/v1"
                         /\ endpoints args = None)
                     \/ (exists all_results,
                           fst (audit urljoin transport args w) = Ok all_results
                           /\ text = json_dumps all_results
                           /\ (output args = None \/ output args = Some "")))))
  \/ (exists args filename all_results,
        cmdline = Parsed args
        /\ output args = Some filename /\ filename <> "" /\ writable filename = true
        /\ fst (audit urljoin transport args w) = Ok all_results
        /\ written (snd (main urljoin transport writable cmdline w))
           = (written w ++ [(filename, json_dumps all_results)])%list
        /\ printed (snd (main urljoin transport writable cmdline w)) = printed w).
Proof.
  destruct cmdline as [|help_text|args].
  { left. split; reflexivity. }
  { right. left. exists help_text. split; [reflexivity|]. split; [reflexivity|].
    now left. }
  rewrite main_parsed. rewrite (audit_cases urljoin transport args w).
  destruct (negb (startswith (url args) "http://")
            && negb (startswith (url args) "https://")) eqn:Eu.
  { apply andb_true_iff in Eu. destruct Eu as [E1 E2].
    rewrite negb_true_iff in E1, E2.
    right. left. eexists. split; [reflexivity|]. split; [reflexivity|].
    right. exists args. split; [reflexivity|]. left. now repeat split. }
  destruct (endpoints args) as [eps|] eqn:Ee.
  2:{ right. left. eexists. split; [reflexivity|]. split; [reflexivity|].
      right. exists args. split; [reflexivity|]. right. left. now split. }
  pose proof (audit_cases urljoin transport args w) as Haudit.
  rewrite Eu, Ee in Haudit.
  destruct (audit_loop_frame args eps eps [] w Ee (incl_refl eps))
    as [new [_ [_ [Hp Hw]]]].
  destruct (for_each (audit_endpoint urljoin transport args) eps [] w)
    as [[all|ex] w1]; cbn [fst snd printed written] in *.
  2:{ left. split; assumption. }
  rewrite emit_cases.
  destruct (output args) as [[|c f]|] eqn:Eo.
  - right. left. exists (json_dumps all). cbn [snd printed written].
    rewrite Hp, Hw. split; [reflexivity|]. split; [reflexivity|].
    right. exists args. split; [reflexivity|]. right. right.
    exists all. rewrite Haudit. split; [reflexivity|]. split; [reflexivity|]. now right.
  - destruct (writable (String c f)) eqn:Ew; cbn [snd printed written].
    + right. right. exists args, (String c f), all.
      rewrite Hp, Hw, Haudit. repeat split; try assumption. discriminate.
    + left. split; assumption.
  - right. left. exists (json_dumps all). cbn [snd printed written].
    rewrite Hp, Hw. split; [reflexivity|]. split; [reflexivity|].
    right. exists args. split; [reflexivity|]. right. right.
    exists all. rewrite Haudit. split; [reflexivity|]. split; [reflexivity|]. now left.
Qed.

End RunFacts.

(** ** Runs in which every join returns *)

Section CompleteRunFacts.

Variable urljoin : string -> string -> result string.
Variable transport : nat -> request -> outcome.

Lemma flat_map_length_const {A B : Type} (f : A -> list B) (l : list A) (k : nat) :
  (forall a, length (f a) = k) -> length (flat_map f l) = (length l * k)%nat.
Proof.
  intros H. induction l as [|a l IH]; simpl; [reflexivity|].
  now rewrite length_app, H, IH.
Qed.

Lemma first_occurrences_fold (l : list string) :
  fold_left add_key l [] = first_occurrences l.
Proof.
  rewrite fold_add_key. simpl.
  apply forallb_filter_id. apply forallb_forall. intros y _. reflexivity.
Qed.

(** X4: when the startup checks pass, every join returns and the method
    list is not empty, the run sends one request per pair of endpoint and
    method, endpoint by endpoint in configuration order and, for each
    endpoint, method by method in list order; the report has one entry per
    distinct endpoint, in the order of first occurrence. *)
Theorem every_endpoint_is_probed_with_every_method
    (args : Namespace) (eps urls : list string) (w : world) :
  startswith (url args) "http://" = true \/ startswith (url args) "https://" = true ->
  endpoints args = Some eps ->
  Forall2 (fun e full_url => urljoin (url args) e = Ok full_url) eps urls ->
  methods args <> [] ->
  exists all_results w',
    audit urljoin transport args w = (Ok all_results, w')
    /\ keys all_results = first_occurrences eps
    /\ sent w'
       = (sent w
          ++ flat_map (fun full_url =>
                         map (request_for full_url (user_agent args) (timeout args)
                                (ignore_ssl args)) (methods args)) urls)%list
    /\ length (sent w')
       = (length (sent w) + length eps * length (methods args))%nat.
Proof.
  intros Hurl Heps Hjoin Hm. rewrite audit_cases, Heps.
  replace (negb (startswith (url args) "http://")
           && negb (startswith (url args) "https://")) with false
    by (destruct Hurl as [-> | ->]; cbn; now rewrite ?andb_false_r).
  destruct (audit_loop_run urljoin transport args eps urls [] w Hjoin Hm)
    as [all [w' [Hrun [Hk Hs]]]].
  exists all, w'. split; [exact Hrun|].
  split; [rewrite Hk; apply first_occurrences_fold|].
  split; [exact Hs|].
  rewrite Hs, length_app. f_equal.
  rewrite (flat_map_length_const _ urls (length (methods args)))
    by (intros u; apply length_map).
  f_equal. symmetry. eapply Forall2_length. exact Hjoin.
Qed.

Lemma audit_loop_get_other (args : Namespace) (eps : list string)
    (all_results all_results' : dict (dict pyvalue)) (w w' : world) (e : string) :
  for_each (audit_endpoint urljoin transport args) eps all_results w
  = (Ok all_results', w') ->
  ~ In e eps ->
  dict_get all_results' e = dict_get all_results e.
Proof.
  revert all_results w. induction eps as [|x eps IH]; intros all_results w; simpl.
  - unfold ret. now intros [= <- <-].
  - unfold bind. rewrite audit_endpoint_run.
    destruct (urljoin (url args) x) as [full_url|ex]; [|discriminate].
    cbv beta iota zeta. intros Hrun Hout.
    rewrite (IH _ _ Hrun) by tauto.
    destruct (methods args); [reflexivity|].
    apply dict_get_set_other. intros ->. tauto.
Qed.

(** X5: an endpoint listed more than once is probed once per occurrence,
    but the report holds one entry for it: the report of its last probe,
    the one that starts after the requests of all the endpoints listed
    before that occurrence. *)
Theorem repeated_endpoint_keeps_last_report
    (args : Namespace) (pre : list string) (e : string) (post upre : list string)
    (full_url : string) (upost : list string) (w : world) :
  startswith (url args) "http://" = true \/ startswith (url args) "https://" = true ->
  endpoints args = Some (pre ++ e :: post)%list ->
  Forall2 (fun e full_url => urljoin (url args) e = Ok full_url) pre upre ->
  urljoin (url args) e = Ok full_url ->
  Forall2 (fun e full_url => urljoin (url args) e = Ok full_url) post upost ->
  methods args <> [] ->
  ~ In e post ->
  exists all_results w',
    audit urljoin transport args w = (Ok all_results, w')
    /\ dict_get all_results e
       = Some (probe_fold transport full_url (user_agent args) (timeout args)
                 (ignore_ssl args)
                 (length (sent w) + length pre * length (methods args)) []
                 (methods args))
    /\ count_occ string_dec (keys all_results) e = 1%nat.
Proof.
  intros Hurl Heps Hpre He Hpost Hm Hlast.
  assert (Hall : Forall2 (fun e full_url => urljoin (url args) e = Ok full_url)
                   (pre ++ e :: post) (upre ++ full_url :: upost))
    by (apply Forall2_app; [exact Hpre | constructor; assumption]).
  assert (Hchk : negb (startswith (url args) "http://")
                 && negb (startswith (url args) "https://") = false)
    by (destruct Hurl as [-> | ->]; cbn; now rewrite ?andb_false_r).
  destruct (audit_loop_run urljoin transport args _ _ [] w Hall Hm)
    as [all [w' [Hrun [Hk _]]]].
  rewrite first_occurrences_fold in Hk.
  rewrite audit_cases, Heps, Hchk.
  exists all, w'. split; [exact Hrun|]. split.
  - rewrite for_each_app in Hrun.
    destruct (audit_loop_run urljoin transport args pre upre [] w Hpre Hm)
      as [all1 [w1 [Hrun1 [_ Hs1]]]].
    rewrite Hrun1 in Hrun. simpl in Hrun. unfold bind in Hrun.
    rewrite audit_endpoint_run, He in Hrun. cbv beta iota zeta in Hrun.
    rewrite (audit_loop_get_other _ _ _ _ _ _ e Hrun Hlast).
    destruct (methods args) as [|m ms] eqn:Em; [contradiction|].
    rewrite dict_get_set_same. do 2 f_equal.
    rewrite Hs1, length_app. f_equal.
    rewrite (flat_map_length_const _ upre (length (m :: ms)))
      by (intros u; apply length_map).
    f_equal. symmetry. eapply Forall2_length. exact Hpre.
  - apply NoDup_count_occ'.
    + rewrite Hk. apply first_occurrences_NoDup.
    + rewrite Hk. apply first_occurrences_in, in_or_app. right. now left.
Qed.

Lemma probe_fold_steady (full_url ua : string) (tmo : Z) (ignore : bool)
    (n n' : nat) (results : dict pyvalue) (meths : list string) :
  steady transport ->
  probe_fold transport full_url ua tmo ignore n results meths
  = probe_fold transport full_url ua tmo ignore n' results meths.
Proof.
  intros Hs. revert n n' results.
  induction meths as [|m meths IH]; intros n n' results; simpl; [reflexivity|].
  rewrite (Hs n n'). apply IH.
Qed.

Lemma audit_loop_steady (args : Namespace) (eps : list string)
    (all_results : dict (dict pyvalue)) (w1 w2 : world) :
  steady transport ->
  fst (for_each (audit_endpoint urljoin transport args) eps all_results w1)
  = fst (for_each (audit_endpoint urljoin transport args) eps all_results w2).
Proof.
  intros Hs. revert all_results w1 w2.
  induction eps as [|e eps IH]; intros all_results w1 w2; simpl; [reflexivity|].
  unfold bind. rewrite !audit_endpoint_run.
  destruct (urljoin (url args) e) as [full_url|ex]; [|reflexivity].
  cbv beta iota zeta.
  rewrite (probe_fold_steady _ _ _ _ (length (sent w1)) (length (sent w2))) by exact Hs.
  apply IH.
Qed.

Lemma same_tail {A : Type} (l l' a out : list A) :
  (l ++ a = l ++ out)%list -> (l' ++ a = l' ++ out)%list.
Proof. intros H. apply app_inv_head in H. now subst out. Qed.

Lemma same_empty_tail {A : Type} (l l' out : list A) :
  l = (l ++ out)%list -> l' = (l' ++ out)%list.
Proof.
  intros H. rewrite <- (app_nil_r l) in H at 1.
  apply app_inv_head in H. subst out. now rewrite app_nil_r.
Qed.

Variable writable : string -> bool.

(** X6: with a transport whose answers do not depend on what was sent
    before, the outcome of a run does not depend on the state it starts in:
    a second run returns the same result, builds the same report and puts
    out the same line or the same file as the first. *)
Theorem steady_transport_repeats_the_run (args : Namespace) (w1 w2 : world) :
  steady transport ->
  fst (audit urljoin transport args w1) = fst (audit urljoin transport args w2)
  /\ fst (main urljoin transport writable (Parsed args) w1)
     = fst (main urljoin transport writable (Parsed args) w2)
  /\ (forall out,
        printed (snd (main urljoin transport writable (Parsed args) w1))
        = (printed w1 ++ out)%list ->
        printed (snd (main urljoin transport writable (Parsed args) w2))
        = (printed w2 ++ out)%list)
  /\ (forall out,
        written (snd (main urljoin transport writable (Parsed args) w1))
        = (written w1 ++ out)%list ->
        written (snd (main urljoin transport writable (Parsed args) w2))
        = (written w2 ++ out)%list).
Proof.
  intros Hs.
  assert (Ha : fst (audit urljoin transport args w1)
               = fst (audit urljoin transport args w2)).
  { rewrite !audit_cases.
    destruct (negb (startswith (url args) "http://")
              && negb (startswith (url args) "https://")); [reflexivity|].
    destruct (endpoints args) as [eps|]; [|reflexivity].
    now apply audit_loop_steady. }
  split; [exact Ha|].
  rewrite !main_parsed. rewrite !audit_cases in *.
  destruct (negb (startswith (url args) "http://")
            && negb (startswith (url args) "https://")).
  { cbn. repeat split; intros out H;
      solve [eapply same_tail; eassumption | eapply same_empty_tail; eassumption]. }
  destruct (endpoints args) as [eps|] eqn:Ee.
  2:{ cbn. repeat split; intros out H;
        solve [eapply same_tail; eassumption | eapply same_empty_tail; eassumption]. }
  destruct (audit_loop_frame urljoin transport args eps eps [] w1 Ee (incl_refl eps))
    as [_ [_ [_ [Hp1 Hw1]]]].
  destruct (audit_loop_frame urljoin transport args eps eps [] w2 Ee (incl_refl eps))
    as [_ [_ [_ [Hp2 Hw2]]]].
  destruct (for_each (audit_endpoint urljoin transport args) eps [] w1)
    as [[all1|ex1] v1];
    destruct (for_each (audit_endpoint urljoin transport args) eps [] w2)
      as [[all2|ex2] v2]; cbn [fst snd printed written] in *; try discriminate.
  - injection Ha as <-. rewrite !emit_cases.
    destruct (output args) as [[|c f]|]; [| destruct (writable (String c f)) |];
      cbn [fst snd printed written]; rewrite Hp1, Hp2, Hw1, Hw2;
      repeat split; intros out H;
      solve [eapply same_tail; eassumption | eapply same_empty_tail; eassumption].
  - injection Ha as <-. rewrite Hp1, Hp2, Hw1, Hw2.
    repeat split; intros out H;
      solve [eapply same_tail; eassumption | eapply same_empty_tail; eassumption].
Qed.

End CompleteRunFacts.

(** ** The log of a run *)

Section LogFacts.

Variable urljoin : string -> string -> result string.
Variable transport : nat -> request -> outcome.

Lemma probe_log_announces_nothing (full_url ua : string) (tmo : Z) (ignore : bool)
    (n : nat) (meths : list string) :
  announced (probe_log transport full_url ua tmo ignore n meths) = []
  /\ reported_failed (probe_log transport full_url ua tmo ignore n meths) = [].
Proof.
  revert n. induction meths as [|m meths IH]; intros n; simpl; [now split|].
  unfold announced, reported_failed in *. rewrite !flat_map_app.
  destruct (IH (S n)) as [-> ->].
  now destruct (transport n (request_for full_url ua tmo ignore m)).
Qed.

Lemma audit_loop_log (args : Namespace) (eps urls : list string)
    (all_results : dict (dict pyvalue)) (w : world) :
  Forall2 (fun e full_url => urljoin (url args) e = Ok full_url) eps urls ->
  exists records,
    logged (snd (for_each (audit_endpoint urljoin transport args) eps all_results w))
    = (logged w ++ records)%list
    /\ announced records = eps
    /\ reported_failed records = match methods args with [] => eps | _ :: _ => [] end.
Proof.
  intros Hjoin. revert all_results w.
  induction Hjoin as [|e full_url eps urls He _ IH]; intros all_results w; simpl.
  - exists []. rewrite app_nil_r. repeat split. now destruct (methods args).
  - unfold bind. rewrite audit_endpoint_run, He. cbv beta iota zeta.
    match goal with
    | |- context [for_each _ eps ?a ?w1] => destruct (IH a w1) as [records [Hl [Ha Hf]]]
    end.
    cbn [logged] in Hl. eexists. rewrite Hl, <- !app_assoc.
    split; [reflexivity|].
    unfold announced, reported_failed in *. rewrite !flat_map_app.
    destruct (probe_log_announces_nothing full_url (user_agent args) (timeout args)
                (ignore_ssl args) (length (sent w)) (methods args)) as [Hpa Hpf].
    unfold announced, reported_failed in Hpa, Hpf. rewrite Hpa, Hpf, Ha, Hf.
    destruct (methods args); split; reflexivity.
Qed.

Variable writable : string -> bool.

(** X7: the log of a run in which the startup checks pass and every join
    returns announces each configured endpoint once, in configuration order,
    and ends with the record [Audit completed.]; no endpoint is reported as
    failed unless the method list is empty, in which case all of them are. *)
Theorem complete_run_announces_every_endpoint
    (args : Namespace) (eps urls : list string) (w : world) :
  startswith (url args) "http://" = true \/ startswith (url args) "https://" = true ->
  endpoints args = Some eps ->
  Forall2 (fun e full_url => urljoin (url args) e = Ok full_url) eps urls ->
  exists records,
    logged (snd (main urljoin transport writable (Parsed args) w))
    = (logged w ++ records ++ [(INFO, AuditCompleted)])%list
    /\ announced records = eps
    /\ reported_failed records = match methods args with [] => eps | _ :: _ => [] end.
Proof.
  intros Hurl Heps Hjoin. rewrite main_parsed, audit_cases, Heps.
  replace (negb (startswith (url args) "http://")
           && negb (startswith (url args) "https://")) with false
    by (destruct Hurl as [-> | ->]; cbn; now rewrite ?andb_false_r).
  destruct (audit_loop_log args eps urls [] w Hjoin) as [records [Hl [Ha Hf]]].
  destruct (audit_loop_returns urljoin transport args eps [] w) as [all [w1 Hrun]].
  { intros e He. clear - Hjoin He. induction Hjoin as [|x u eps urls Hx _ IH];
      [contradiction|]. destruct He as [<-|He]; [eauto | auto]. }
  rewrite Hrun in *. cbn [snd logged] in *. rewrite emit_cases.
  destruct (output args) as [[|c f]|]; [| destruct (writable (String c f)) |];
    cbn [snd logged]; rewrite Hl.
  - exists records. now rewrite <- app_assoc.
  - exists (records ++ [(INFO, ResultsSavedTo (String c f))])%list.
    rewrite <- !app_assoc. split; [reflexivity|].
    unfold announced, reported_failed in *. rewrite !flat_map_app, Ha, Hf.
    cbn. rewrite !app_nil_r. now split.
  - exists (records ++ [(ERROR, ErrorSavingResults (String c f))])%list.
    rewrite <- !app_assoc. split; [reflexivity|].
    unfold announced, reported_failed in *. rewrite !flat_map_app, Ha, Hf.
    cbn. rewrite !app_nil_r. now split.
  - exists records. now rewrite <- app_assoc.
Qed.

(** X8: the startup checks in the order the script makes them.  A URL that
    starts with neither [http://] nor [https://] ends the run with status 1
    after printing the URL message, whether or not endpoints are given, and
    logs nothing; with a good URL and no endpoints the run logs a warning,
    prints the endpoints message and ends with status 1.  In both cases
    nothing is sent or written and [Audit completed.] is not logged. *)
Theorem startup_checks_in_order (args : Namespace) (w : world) :
  (startswith (url args) "http://" = false ->
   startswith (url args) "https://" = false ->
   main urljoin transport writable (Parsed args) w
   = (Raise (SystemExit 1),
      mkWorld (sent w) (logged w)
        (printed w ++ ["Error: URL must start with http:// or https://"])
        (written w)))
  /\ (startswith (url args) "http://" = true \/ startswith (url args) "https://" = true ->
      endpoints args = None ->
      main urljoin transport writable (Parsed args) w
      = (Raise (SystemExit 1),
         mkWorld (sent w) (logged w ++ [(WARNING, NoEndpointsSpecified)])
           (printed w ++ ["Error: No endpoints specified, this tool requires you to explicitly list the endpoints. Example: -e /admin /api/v1"])
           (written w))).
Proof.
  split.
  - intros H1 H2. now rewrite main_parsed, audit_cases, H1, H2.
  - intros Hurl He. rewrite main_parsed, audit_cases, He.
    now destruct Hurl as [-> | ->]; cbn; rewrite ?andb_false_r.
Qed.

End LogFacts.

(** ** The JSON text *)

Lemma all_chars_app (p : ascii -> bool) (a b : string) :
  Urllib.all_chars p (a ++ b) = Urllib.all_chars p a && Urllib.all_chars p b.
Proof.
  induction a as [|c a IH]; simpl; [reflexivity|].
  now rewrite IH, andb_assoc.
Qed.

Lemma escape_char_plain (c : ascii) :
  Urllib.all_chars plain_char (escape_char c) = true.
Proof.
  destruct c as [[] [] [] [] [] [] [] []]; vm_compute; reflexivity.
Qed.

Lemma json_string_plain (s : string) :
  Urllib.all_chars plain_char (json_string s) = true.
Proof.
  assert (He : Urllib.all_chars plain_char (escape s) = true).
  { induction s as [|c s IH]; simpl; [reflexivity|].
    now rewrite all_chars_app, escape_char_plain, IH. }
  unfold json_string. now rewrite !all_chars_app, He.
Qed.

Lemma spaces_plain (n : nat) : Urllib.all_chars plain_char (spaces n) = true.
Proof. induction n as [|n IH]; simpl; [reflexivity | exact IH]. Qed.

Lemma json_items_plain {V : Type} (enc : V -> string) (ind : nat) (d : dict V) :
  (forall v, Urllib.all_chars plain_char (enc v) = true) ->
  Urllib.all_chars plain_char (json_items enc ind d) = true.
Proof.
  intros Henc. rewrite json_items_concat.
  induction d as [|[k v] d IH]; [reflexivity|].
  assert (Hline : Urllib.all_chars plain_char
                    (newline ++ spaces ind ++ json_string k ++ ": " ++ enc v) = true).
  { rewrite !all_chars_app, spaces_plain, json_string_plain, Henc. reflexivity. }
  destruct d as [|kv d]; [exact Hline|].
  cbn [map String.concat fst snd] in *.
  rewrite all_chars_app, Hline. rewrite all_chars_app. cbn [andb].
  change (Urllib.all_chars plain_char ",") with true. cbn [andb]. exact IH.
Qed.

Lemma json_dict_plain {V : Type} (enc : V -> string) (lvl : nat) (d : dict V) :
  (forall v, Urllib.all_chars plain_char (enc v) = true) ->
  Urllib.all_chars plain_char (json_dict enc lvl d) = true.
Proof.
  intros Henc. unfold json_dict. destruct d as [|kv d]; [reflexivity|].
  rewrite !all_chars_app, json_items_plain, spaces_plain by exact Henc. reflexivity.
Qed.

(** X9: whatever characters the endpoint and method names contain, the
    JSON text of a report consists of printable ASCII characters and line
    feeds only: quotes, backslashes, control characters and characters above
    126 inside a name are escaped. *)
Theorem json_text_is_plain_ascii (all_results : dict (dict pyvalue)) :
  Urllib.all_chars plain_char (json_dumps all_results) = true.
Proof.
  unfold json_dumps. apply json_dict_plain. intros report.
  apply json_dict_plain. intros v. now destruct v.
Qed.

(** ** Joins that cannot raise *)

Module BracketFacts.
Import Urllib.














End BracketFacts.


(** ** Concrete runs of the further properties *)

(** [TRACE] fails on the sample endpoint: one record is logged for it. *)
Lemma prober_logs_exactly_the_failed_requests_witness :
  exists records,
    logged (snd (test_http_methods py_urljoin stub_transport "https://example.com"
                   "/admin" ["GET"; "TRACE"] "VulnHTTPMethodAuditor/1.0" 10 false
                   initial_world)) = records
    /\ length records = 1%nat
    /\ In (ERROR, ErrorTesting "TRACE" "https://example.com/admin") records.
Proof.
  destruct (prober_logs_exactly_the_failed_requests py_urljoin stub_transport
              "https://example.com" "/admin" "https://example.com/admin"
              ["GET"; "TRACE"] "VulnHTTPMethodAuditor/1.0" 10 false initial_world
              eq_refl) as [records [Hl [Hn [_ [Hin _]]]]].
  exists records. split; [exact Hl|]. split; [exact Hn|].
  exact (proj1 (Hin ["GET"] "TRACE" [] eq_refl) eq_refl).
Defined.

(** The run over [/admin], [/api], [/admin] sends six requests. *)
Lemma every_endpoint_is_probed_with_every_method_witness :
  exists all_results w',
    audit py_urljoin stub_transport repeated_args initial_world = (Ok all_results, w')
    /\ keys all_results = ["/admin"; "/api"]
    /\ length (sent w') = 6%nat.
Proof.
  destruct (every_endpoint_is_probed_with_every_method py_urljoin stub_transport
              repeated_args ["/admin"; "/api"; "/admin"]
              ["https://example.com/admin"; "https://example.com/api";
               "https://example.com/admin"] initial_world
              (or_intror eq_refl) eq_refl)
    as [all [w' [Hrun [Hk [_ Hn]]]]].
  - repeat constructor.
  - discriminate.
  - exists all, w'. split; [exact Hrun|]. split; [exact Hk | exact Hn].
Defined.

(** [/admin] is listed first and last: its entry is the report of the probe
    that starts after four requests. *)
Lemma repeated_endpoint_keeps_last_report_witness :
  exists all_results w',
    audit py_urljoin stub_transport repeated_args initial_world = (Ok all_results, w')
    /\ dict_get all_results "/admin" = Some [("GET", Allowed); ("TRACE", Error)].
Proof.
  destruct (repeated_endpoint_keeps_last_report py_urljoin stub_transport
              repeated_args ["/admin"; "/api"] "/admin" []
              ["https://example.com/admin"; "https://example.com/api"]
              "https://example.com/admin" [] initial_world
              (or_intror eq_refl) eq_refl)
    as [all [w' [Hrun [Hget _]]]].
  - repeat constructor.
  - reflexivity.
  - constructor.
  - discriminate.
  - intros [].
  - exists all, w'. split; [exact Hrun | exact Hget].
Defined.

(** A second run with the steady stub returns what the first one did. *)
Lemma steady_transport_repeats_the_run_witness :
  fst (audit py_urljoin steady_stub sample_args initial_world)
  = fst (audit py_urljoin steady_stub sample_args
           (snd (main py_urljoin steady_stub read_only (Parsed sample_args)
                   initial_world))).
Proof.
  exact (proj1 (steady_transport_repeats_the_run py_urljoin steady_stub read_only
                  sample_args initial_world
                  (snd (main py_urljoin steady_stub read_only (Parsed sample_args)
                          initial_world))
                  (fun n n' r => eq_refl))).
Defined.

(** The log of the sample run announces [/admin]. *)
Lemma complete_run_announces_every_endpoint_witness :
  exists records,
    logged (snd (main py_urljoin stub_transport read_only (Parsed sample_args)
                   initial_world))
    = (records ++ [(INFO, AuditCompleted)])%list
    /\ announced records = ["/admin"].
Proof.
  destruct (complete_run_announces_every_endpoint py_urljoin stub_transport read_only
              sample_args ["/admin"] ["https://example.com/admin"] initial_world
              (or_intror eq_refl) eq_refl)
    as [records [Hl [Ha _]]].
  - repeat constructor.
  - exists records. split; [exact Hl | exact Ha].
Defined.


(** ** A join that raises *)

Section AbortedRunFacts.

Variable urljoin : string -> string -> result string.
Variable transport : nat -> request -> outcome.
Variable writable : string -> bool.

Lemma audit_loop_sent (args : Namespace) (eps urls : list string)
    (all_results : dict (dict pyvalue)) (w : world) :
  Forall2 (fun e full_url => urljoin (url args) e = Ok full_url) eps urls ->
  exists all_results' w',
    for_each (audit_endpoint urljoin transport args) eps all_results w
    = (Ok all_results', w')
    /\ sent w'
       = (sent w
          ++ flat_map (fun full_url =>
                         map (request_for full_url (user_agent args) (timeout args)
                                (ignore_ssl args)) (methods args)) urls)%list.
Proof.
  intros Hjoin. revert all_results w.
  induction Hjoin as [|e full_url eps urls He _ IH]; intros all_results w; simpl.
  - unfold ret. exists all_results, w. now rewrite app_nil_r.
  - unfold bind. rewrite audit_endpoint_run, He. cbv beta iota zeta.
    match goal with
    | |- context [for_each _ eps ?a ?w1] => destruct (IH a w1) as [all' [w' [Hrun Hs]]]
    end.
    exists all', w'. split; [exact Hrun|].
    rewrite Hs. cbn [sent]. now rewrite <- app_assoc.
Qed.

(** X11: when the join of an endpoint raises, the exception ends the run
    there: the endpoints before it have been probed and the failing one
    announced, the endpoints after it are never probed, and nothing is
    printed or written, so the reports gathered up to that point are lost. *)
Theorem raising_join_aborts_the_run
    (args : Namespace) (pre : list string) (e : string) (post upre : list string)
    (ex : exn) (w : world) :
  startswith (url args) "http://" = true \/ startswith (url args) "https://" = true ->
  endpoints args = Some (pre ++ e :: post)%list ->
  Forall2 (fun e full_url => urljoin (url args) e = Ok full_url) pre upre ->
  urljoin (url args) e = Raise ex ->
  fst (main urljoin transport writable (Parsed args) w) = Raise ex
  /\ sent (snd (main urljoin transport writable (Parsed args) w))
     = (sent w
        ++ flat_map (fun full_url =>
                       map (request_for full_url (user_agent args) (timeout args)
                              (ignore_ssl args)) (methods args)) upre)%list
  /\ printed (snd (main urljoin transport writable (Parsed args) w)) = printed w
  /\ written (snd (main urljoin transport writable (Parsed args) w)) = written w
  /\ exists records,
       logged (snd (main urljoin transport writable (Parsed args) w))
       = (logged w ++ records)%list
       /\ announced records = (pre ++ [e])%list.
Proof.
  intros Hurl Heps Hpre He. rewrite main_parsed, audit_cases, Heps.
  replace (negb (startswith (url args) "http://")
           && negb (startswith (url args) "https://")) with false
    by (destruct Hurl as [-> | ->]; cbn; now rewrite ?andb_false_r).
  rewrite for_each_app.
  destruct (audit_loop_sent args pre upre [] w Hpre) as [all1 [w1 [Hrun Hs]]].
  destruct (audit_loop_log urljoin transport args pre upre [] w Hpre)
    as [records [Hl [Ha _]]].
  destruct (audit_loop_frame urljoin transport args (pre ++ e :: post) pre [] w Heps)
    as [_ [_ [_ [Hp Hw]]]].
  { intros x Hx. apply in_or_app. now left. }
  rewrite Hrun in *. cbn [snd] in Hl, Hp, Hw.
  simpl. unfold bind. rewrite audit_endpoint_run, He. cbn [fst snd sent printed written logged].
  split; [reflexivity|]. split; [exact Hs|]. split; [exact Hp|]. split; [exact Hw|].
  exists (records ++ [(INFO, AuditingEndpoint e)])%list.
  rewrite Hl, <- app_assoc. split; [reflexivity|].
  unfold announced in *. rewrite flat_map_app, Ha. reflexivity.
Qed.

End AbortedRunFacts.

(** The run of [unjoinable_args] stops at [//[], its first endpoint. *)
Lemma raising_join_aborts_the_run_witness :
  fst (main py_urljoin stub_transport read_write (Parsed unjoinable_args) initial_world)
  = Raise ValueError
  /\ sent (snd (main py_urljoin stub_transport read_write (Parsed unjoinable_args)
                  initial_world)) = [].
Proof.
  destruct (raising_join_aborts_the_run py_urljoin stub_transport read_write
              unjoinable_args [] "//[" ["/admin"] [] ValueError initial_world
              (or_intror eq_refl) eq_refl (Forall2_nil _) eq_refl)
    as [Hr [Hs _]].
  split; [exact Hr | exact Hs].
Defined.
